(** * xCrack AI predictor: the communication bridge and the MEV scan

    A shallow embedding of [ai_predictor/src/communication/rust_bridge.py]
    (class [RustBridge]) and of the MEV-detection cycle of
    [ai_predictor/src/main.py], together with the properties of the
    specification that concern them.

    Conventions.
    - Python values that travel in messages are terms of [pyval]; a [dict]
      with string keys is an association list in insertion order.
    - [time.time()] is read in whole microseconds since the epoch, so
      [int(time.time())] is the quotient by 10^6 and
      [int(time.time() * 1000)] the quotient by 10^3.
    - A coroutine is cut at its suspension points: every definition below is
      one uninterrupted stretch of code between two [await]s that really
      suspend.  What the event loop, the network or the clock decide is an
      argument of the definition.
    - A method that may raise returns an [outcome]. *)

From Stdlib Require Import ZArith Floats.PrimFloat.
From stdpp Require Import gmap strings list fin_maps pretty.

#[local] Set Warnings "-inexact-float".

(** ** Python values *)

#[local] Unset Elimination Schemes.
Inductive pyval :=
| PNone
| PBool (b : bool)
| PInt (z : Z)
| PFloat (f : float)
| PStr (s : string)
| PList (l : list pyval)
| PDict (d : list (string * pyval)).
#[local] Set Elimination Schemes.

Inductive exn :=
| KeyError (k : string)
| TypeError
| AttributeError
| CancelledError
| ConnectionRefusedError
| ConnectionClosed
| OtherError (what : string).

Inductive outcome (A : Type) :=
| Returned (a : A)
| Raised (e : exn).
Arguments Returned {A} a.
Arguments Raised {A} e.

(** [d[k]] for an association list: the first binding of [k]. *)
Fixpoint dict_get (k : string) (d : list (string * pyval)) : option pyval :=
  match d with
  | [] => None
  | (k', v) :: d' => if String.eqb k k' then Some v else dict_get k d'
  end.

(** [k in message] *)
Definition has_key (k : string) (message : pyval) : bool :=
  match message with
  | PDict d => bool_decide (is_Some (dict_get k d))
  | _ => false
  end.

(** [message.get(k)] on a dict: [None] when the key is absent. *)
Definition py_get (k : string) (d : list (string * pyval)) : pyval :=
  default PNone (dict_get k d).

(** [v == "literal"] *)
Definition py_eq_str (v : pyval) (s : string) : bool :=
  match v with
  | PStr s' => String.eqb s' s
  | _ => false
  end.

(** [if v:] *)
Definition py_truthy (v : pyval) : bool :=
  match v with
  | PNone => false
  | PBool b => b
  | PInt z => negb (z =? 0)%Z
  | PFloat f => negb (PrimFloat.eqb f 0%float)
  | PStr s => negb (String.eqb s "")
  | PList l => negb (bool_decide (l = []))
  | PDict d => negb (bool_decide (d = []))
  end.

(** ** The clock *)

Definition int_seconds (t : Z) : Z := Z.quot t 1000000.
Definition int_millis (t : Z) : Z := Z.quot t 1000.

(** ** Message dataclasses *)

Record PredictionMessage := {
  p_symbol : string;
  p_direction : float;
  p_confidence : float;
  p_time_horizon : Z;
  p_expected_move : float;
  p_timestamp : Z;
  p_strategy_type : string;
  p_strategy_params : list (string * pyval);
  p_model_version : string;
  p_features_used : list string
}.

Record MEVOpportunityMessage := {
  symbol : string;
  opportunity_type : string;
  profit_potential : float;
  gas_cost_estimate : float;
  confidence : float;
  time_sensitive : bool;
  priority : Z;
  mempool_position : Z;
  block_prediction : Z;
  execution_strategy : string;
  timestamp : Z
}.

(** [dataclasses.asdict] *)
Definition asdict_prediction (p : PredictionMessage) : pyval :=
  PDict [ ("symbol", PStr (p_symbol p));
          ("direction", PFloat (p_direction p));
          ("confidence", PFloat (p_confidence p));
          ("time_horizon", PInt (p_time_horizon p));
          ("expected_move", PFloat (p_expected_move p));
          ("timestamp", PInt (p_timestamp p));
          ("strategy_type", PStr (p_strategy_type p));
          ("strategy_params", PDict (p_strategy_params p));
          ("model_version", PStr (p_model_version p));
          ("features_used", PList (PStr <$> p_features_used p)) ].

Definition asdict_opportunity (o : MEVOpportunityMessage) : pyval :=
  PDict [ ("symbol", PStr (symbol o));
          ("opportunity_type", PStr (opportunity_type o));
          ("profit_potential", PFloat (profit_potential o));
          ("gas_cost_estimate", PFloat (gas_cost_estimate o));
          ("confidence", PFloat (confidence o));
          ("time_sensitive", PBool (time_sensitive o));
          ("priority", PInt (priority o));
          ("mempool_position", PInt (mempool_position o));
          ("block_prediction", PInt (block_prediction o));
          ("execution_strategy", PStr (execution_strategy o));
          ("timestamp", PInt (timestamp o)) ].

(** [create_mev_opportunity_message] of rust_bridge.py. *)
Definition create_mev_opportunity_message (sym kind : string)
    (profit conf : float) (prio : Z) (now : Z) : MEVOpportunityMessage :=
  {| symbol := sym;
     opportunity_type := kind;
     profit_potential := profit;
     gas_cost_estimate := 0.01;
     confidence := conf;
     time_sensitive := true;
     priority := prio;
     mempool_position := 0;
     block_prediction := 0;
     execution_strategy := "fast";
     timestamp := int_millis now |}.

(** ** Bridge state *)

Inductive CommunicationProtocol :=
| WEBSOCKET
| REDIS
| TCP
| NotAMember (value : string).
(* [NotAMember]: the attribute holds something that is no member of the
   enum (main.py hands over the configured string); every [==] against a
   member is then false. *)

(** An [asyncio.Future]. *)
Inductive future :=
| Pending
| Done (result : pyval)
| Cancelled.

Definition future_done (f : future) : bool :=
  match f with Pending => false | _ => true end.

(** What one connection attempt of the network yields. *)
Inductive attempt :=
| Established (c : nat)
| Refused (e : exn).

(** What reached the transport. The payload is the message handed to
    [json.dumps]; for Redis the first component is the value of
    [message['type']] that names the channel [ai_to_rust_<type>]. *)
Inductive frame :=
| WsFrame (message : pyval)
| RedisPublish (type_ : pyval) (message : pyval)
| TcpLine (message : pyval).

Definition payload (f : frame) : pyval :=
  match f with
  | WsFrame m | RedisPublish _ m | TcpLine m => m
  end.

Record RustBridge := mkBridge {
  host : string;
  port : Z;
  protocol : CommunicationProtocol;
  connected : bool;
  websocket : option nat;
  redis_client : option nat;
  tcp_reader : option nat;
  tcp_writer : option nat;
  outbound_queue : list pyval;            (* asyncio.Queue(), head = oldest *)
  response_futures : gmap string nat;     (* request_id -> future object *)
  messages_sent : Z;
  messages_received : Z;
  connection_errors : Z;
  (* the surroundings of the object *)
  futures : list future;                  (* store of the future objects *)
  net : list attempt;                     (* outcomes of the coming attempts *)
  wire : list frame;                      (* written to the transport, oldest first *)
  enqueued : list pyval;                  (* every envelope ever put on the queue *)
  spawned : nat                           (* sender/receiver task pairs created *)
}.

(** [RustBridge.__init__] *)
Definition init (h : string) (p : Z) (proto : CommunicationProtocol)
    (network : list attempt) : RustBridge :=
  {| host := h; port := p; protocol := proto; connected := false;
     websocket := None; redis_client := None;
     tcp_reader := None; tcp_writer := None;
     outbound_queue := []; response_futures := ∅;
     messages_sent := 0; messages_received := 0; connection_errors := 0;
     futures := []; net := network; wire := []; enqueued := []; spawned := 0 |}.

Definition set_connected (v : bool) (b : RustBridge) : RustBridge :=
  {| host := host b; port := port b; protocol := protocol b; connected := v;
     websocket := websocket b; redis_client := redis_client b;
     tcp_reader := tcp_reader b; tcp_writer := tcp_writer b;
     outbound_queue := outbound_queue b; response_futures := response_futures b;
     messages_sent := messages_sent b; messages_received := messages_received b;
     connection_errors := connection_errors b;
     futures := futures b; net := net b; wire := wire b;
     enqueued := enqueued b; spawned := spawned b |}.

Definition set_handles (ws rd tr tw : option nat) (b : RustBridge) : RustBridge :=
  {| host := host b; port := port b; protocol := protocol b; connected := connected b;
     websocket := ws; redis_client := rd; tcp_reader := tr; tcp_writer := tw;
     outbound_queue := outbound_queue b; response_futures := response_futures b;
     messages_sent := messages_sent b; messages_received := messages_received b;
     connection_errors := connection_errors b;
     futures := futures b; net := net b; wire := wire b;
     enqueued := enqueued b; spawned := spawned b |}.

Definition set_queue (q : list pyval) (b : RustBridge) : RustBridge :=
  {| host := host b; port := port b; protocol := protocol b; connected := connected b;
     websocket := websocket b; redis_client := redis_client b;
     tcp_reader := tcp_reader b; tcp_writer := tcp_writer b;
     outbound_queue := q; response_futures := response_futures b;
     messages_sent := messages_sent b; messages_received := messages_received b;
     connection_errors := connection_errors b;
     futures := futures b; net := net b; wire := wire b;
     enqueued := enqueued b; spawned := spawned b |}.

Definition set_response_futures (t : gmap string nat) (b : RustBridge) : RustBridge :=
  {| host := host b; port := port b; protocol := protocol b; connected := connected b;
     websocket := websocket b; redis_client := redis_client b;
     tcp_reader := tcp_reader b; tcp_writer := tcp_writer b;
     outbound_queue := outbound_queue b; response_futures := t;
     messages_sent := messages_sent b; messages_received := messages_received b;
     connection_errors := connection_errors b;
     futures := futures b; net := net b; wire := wire b;
     enqueued := enqueued b; spawned := spawned b |}.

Definition set_counters (sent received errors : Z) (b : RustBridge) : RustBridge :=
  {| host := host b; port := port b; protocol := protocol b; connected := connected b;
     websocket := websocket b; redis_client := redis_client b;
     tcp_reader := tcp_reader b; tcp_writer := tcp_writer b;
     outbound_queue := outbound_queue b; response_futures := response_futures b;
     messages_sent := sent; messages_received := received;
     connection_errors := errors;
     futures := futures b; net := net b; wire := wire b;
     enqueued := enqueued b; spawned := spawned b |}.

Definition set_surroundings (fs : list future) (n : list attempt) (w : list frame)
    (e : list pyval) (s : nat) (b : RustBridge) : RustBridge :=
  {| host := host b; port := port b; protocol := protocol b; connected := connected b;
     websocket := websocket b; redis_client := redis_client b;
     tcp_reader := tcp_reader b; tcp_writer := tcp_writer b;
     outbound_queue := outbound_queue b; response_futures := response_futures b;
     messages_sent := messages_sent b; messages_received := messages_received b;
     connection_errors := connection_errors b;
     futures := fs; net := n; wire := w; enqueued := e; spawned := s |}.

Definition bump_sent (b : RustBridge) : RustBridge :=
  set_counters (messages_sent b + 1) (messages_received b) (connection_errors b) b.
Definition bump_received (b : RustBridge) : RustBridge :=
  set_counters (messages_sent b) (messages_received b + 1) (connection_errors b) b.
Definition bump_errors (b : RustBridge) : RustBridge :=
  set_counters (messages_sent b) (messages_received b) (connection_errors b + 1) b.
Definition set_futures (fs : list future) (b : RustBridge) : RustBridge :=
  set_surroundings fs (net b) (wire b) (enqueued b) (spawned b) b.
Definition set_net (n : list attempt) (b : RustBridge) : RustBridge :=
  set_surroundings (futures b) n (wire b) (enqueued b) (spawned b) b.
Definition transmit (f : frame) (b : RustBridge) : RustBridge :=
  set_surroundings (futures b) (net b) (wire b ++ [f]) (enqueued b) (spawned b) b.
Definition create_tasks (b : RustBridge) : RustBridge :=
  set_surroundings (futures b) (net b) (wire b) (enqueued b) (S (spawned b)) b.

(** ** Producers: everything goes through the outbound queue *)

(** [_send_message]: [put] on a queue built without a bound returns at
    once, so the [except] branch is never taken. *)
Definition _send_message (message : pyval) (b : RustBridge) : RustBridge * bool :=
  (set_surroundings (futures b) (net b) (wire b) (enqueued b ++ [message]) (spawned b)
     (set_queue (outbound_queue b ++ [message]) b),
   true).

Definition prediction_envelope (prediction : PredictionMessage) (now : Z) : pyval :=
  PDict [ ("type", PStr "prediction");
          ("data", asdict_prediction prediction);
          ("timestamp", PInt (int_millis now)) ].

Definition send_prediction (prediction : PredictionMessage) (now : Z)
    (b : RustBridge) : RustBridge * bool :=
  _send_message (prediction_envelope prediction now) b.

Definition mev_envelope (opportunity : MEVOpportunityMessage) (now : Z) : pyval :=
  PDict [ ("type", PStr "mev_opportunity");
          ("data", asdict_opportunity opportunity);
          ("timestamp", PInt (int_millis now)) ].

Definition send_mev_opportunity (opportunity : MEVOpportunityMessage) (now : Z)
    (b : RustBridge) : RustBridge * bool :=
  _send_message (mev_envelope opportunity now) b.

Definition metrics_envelope (metrics : pyval) (now : Z) : pyval :=
  PDict [ ("type", PStr "metrics");
          ("data", metrics);
          ("timestamp", PInt (int_millis now)) ].

Definition send_metrics (metrics : pyval) (now : Z) (b : RustBridge)
    : RustBridge * bool :=
  _send_message (metrics_envelope metrics now) b.

Definition heartbeat_envelope (now : Z) (b : RustBridge) : pyval :=
  PDict [ ("type", PStr "heartbeat");
          ("data", PDict [ ("status", PStr "alive");
                           ("timestamp", PInt (int_millis now));
                           ("messages_sent", PInt (messages_sent b));
                           ("messages_received", PInt (messages_received b)) ]) ].

Definition send_heartbeat (now : Z) (b : RustBridge) : RustBridge * bool :=
  _send_message (heartbeat_envelope now b) b.

(** ** Feedback requests *)

(** f"feedback_{int(time.time())}" *)
Definition feedback_request_id (now : Z) : string :=
  "feedback_" +:+ pretty (int_seconds now).

Definition feedback_envelope (t_id t_ts : Z) : pyval :=
  PDict [ ("type", PStr "request_feedback");
          ("request_id", PStr (feedback_request_id t_id));
          ("timestamp", PInt (int_millis t_ts)) ].

(** The caller of [get_performance_feedback] while it is parked in
    [asyncio.wait_for(future, timeout=5.0)]. *)
Record waiter := {
  request_id : string;
  awaited : nat
}.

Definition feedback_timeout : Z := 5000000.

(** [get_performance_feedback] up to its suspension: the clock is read
    twice ([t_id] for the request id, [t_ts] for the timestamp), the new
    future is stored under the request id and the request is queued. The
    result is the waiter, or the value returned when nothing is awaited. *)
Definition get_performance_feedback_call (t_id t_ts : Z) (b : RustBridge)
    : RustBridge * (waiter + outcome pyval) :=
  let message := feedback_envelope t_id t_ts in
  let request_id := feedback_request_id t_id in
  let future := length (futures b) in
  let b1 := set_futures (futures b ++ [Pending]) b in
  let b2 := set_response_futures (<[request_id := future]> (response_futures b1)) b1 in
  let '(b3, success) := _send_message message b2 in
  if success
  then (b3, inl {| request_id := request_id; awaited := future |})
  else (b3, inr (Returned PNone)).

(** The rest of [get_performance_feedback], when the event loop wakes the
    waiter [elapsed] microseconds after it was parked: with the result if
    the future has one; by the timeout, which cancels the future and runs
    the [except asyncio.TimeoutError] branch, once 5.0 s have passed.
    [None]: the waiter stays parked. *)
Definition get_performance_feedback_wake (w : waiter) (elapsed : Z) (b : RustBridge)
    : option (RustBridge * outcome pyval) :=
  match futures b !! awaited w with
  | Some (Done response) => Some (b, Returned response)
  | Some Cancelled => Some (b, Raised CancelledError)
  | Some Pending =>
      if (feedback_timeout <=? elapsed)%Z then
        let b1 := set_futures (<[awaited w := Cancelled]> (futures b)) b in
        match response_futures b1 !! request_id w with
        | Some _ =>
            Some (set_response_futures (delete (request_id w) (response_futures b1)) b1,
                  Returned PNone)
        | None => Some (b1, Raised (KeyError (request_id w)))
        end
      else None
  | None => None
  end.

(** ** Receiver side *)

Definition status_response (now : Z) (b : RustBridge) : pyval :=
  PDict [ ("type", PStr "status_response");
          ("data", PDict [ ("status", PStr "running");
                           ("connected", PBool true);
                           ("messages_sent", PInt (messages_sent b));
                           ("messages_received", PInt (messages_received b));
                           ("connection_errors", PInt (connection_errors b)) ]);
          ("timestamp", PInt (int_millis now)) ].

(** [future.set_result(v)] guarded by [if not future.done()]. *)
Definition resolve (fut : nat) (v : pyval) (b : RustBridge) : RustBridge :=
  match futures b !! fut with
  | Some f => if future_done f then b else set_futures (<[fut := Done v]> (futures b)) b
  | None => b
  end.

(** [_handle_received_message]. A [request_id] that is a list or a dict is
    unhashable, so the membership test raises; any other value that is not
    a string is never a key of the table. *)
Definition _handle_received_message (message : pyval) (now : Z) (b : RustBridge)
    : RustBridge * outcome unit :=
  match message with
  | PDict d =>
      let message_type := py_get "type" d in
      if py_eq_str message_type "feedback_response" then
        match py_get "request_id" d with
        | PList _ | PDict _ => (b, Raised TypeError)
        | PStr rid =>
            match response_futures b !! rid with
            | Some fut =>
                let b1 := set_response_futures (delete rid (response_futures b)) b in
                (resolve fut (py_get "data" d) b1, Returned tt)
            | None => (b, Returned tt)
            end
        | _ => (b, Returned tt)
        end
      else if py_eq_str message_type "config_update" then (b, Returned tt)
      else if py_eq_str message_type "status_request" then
        (fst (_send_message (status_response now b) b), Returned tt)
      else (b, Returned tt)
  | _ => (b, Raised AttributeError)
  end.

(** What a read on the transport yields within the 1.0 s poll. *)
Inductive arrival :=
| Nothing                      (* the poll timed out *)
| EndOfStream                  (* TCP [readline] returned b'' *)
| Decoded (message : pyval)    (* a text that [json.loads] accepted *)
| Broken (e : exn).            (* the read or the decoding raised *)

Definition _receive_websocket (a : arrival) (b : RustBridge) : outcome (option pyval) :=
  match websocket b with
  | Some _ =>
      match a with
      | Nothing => Returned None
      | EndOfStream => Raised ConnectionClosed
      | Decoded m => Returned (Some m)
      | Broken e => Raised e
      end
  | None => Returned None
  end.

(** [_receive_redis]: whatever was published, the body is [return None]. *)
Definition _receive_redis (a : arrival) (b : RustBridge) : outcome (option pyval) :=
  Returned None.

Definition _receive_tcp (a : arrival) (b : RustBridge) : outcome (option pyval) :=
  match tcp_reader b with
  | Some _ =>
      match a with
      | Nothing => Returned None
      | EndOfStream => Returned None
      | Decoded m => Returned (Some m)
      | Broken e => Raised e
      end
  | None => Returned None
  end.

(** One turn of the [while self.connected] loop of [_message_receiver];
    [None] when the loop condition is false and the task ends. *)
Definition _message_receiver_turn (a : arrival) (now : Z) (b : RustBridge)
    : option RustBridge :=
  if connected b then
    let received :=
      match protocol b with
      | WEBSOCKET => Some (_receive_websocket a b)
      | REDIS => Some (_receive_redis a b)
      | TCP => Some (_receive_tcp a b)
      | NotAMember _ => None
      end in
    match received with
    | Some (Returned (Some message)) =>
        if py_truthy message then
          match _handle_received_message message now b with
          | (b1, Returned _) => Some (bump_received b1)
          | (b1, Raised _) => Some b1
          end
        else Some b
    | _ => Some b
    end
  else None.

(** ** Sender side *)

(** What the transport does with one write. *)
Inductive delivery :=
| Accepted
| Rejected (e : exn).

Definition _send_websocket (message : pyval) (io : delivery) (b : RustBridge)
    : RustBridge * outcome unit :=
  match websocket b with
  | Some _ =>
      match io with
      | Accepted => (transmit (WsFrame message) b, Returned tt)
      | Rejected e => (b, Raised e)
      end
  | None => (b, Returned tt)
  end.

Definition _send_redis (message : pyval) (io : delivery) (b : RustBridge)
    : RustBridge * outcome unit :=
  match redis_client b with
  | Some _ =>
      match message with
      | PDict d =>
          match dict_get "type" d with
          | Some ty =>
              match io with
              | Accepted => (transmit (RedisPublish ty message) b, Returned tt)
              | Rejected e => (b, Raised e)
              end
          | None => (b, Raised (KeyError "type"))
          end
      | _ => (b, Raised TypeError)
      end
  | None => (b, Returned tt)
  end.

Definition _send_tcp (message : pyval) (io : delivery) (b : RustBridge)
    : RustBridge * outcome unit :=
  match tcp_writer b with
  | Some _ =>
      match io with
      | Accepted => (transmit (TcpLine message) b, Returned tt)
      | Rejected e => (b, Raised e)
      end
  | None => (b, Returned tt)
  end.

(** One turn of the [while self.connected] loop of [_message_sender];
    [None] when the loop condition is false and the task ends. With an
    empty queue the 1.0 s poll times out and the loop continues. A message
    taken from the queue is not put back whatever the write does. *)
Definition _message_sender_turn (io : delivery) (b : RustBridge) : option RustBridge :=
  if connected b then
    match outbound_queue b with
    | [] => Some b
    | message :: rest =>
        let b1 := set_queue rest b in
        let '(b2, sent) :=
          match protocol b1 with
          | WEBSOCKET => _send_websocket message io b1
          | REDIS => _send_redis message io b1
          | TCP => _send_tcp message io b1
          | NotAMember _ => (b1, Returned tt)
          end in
        match sent with
        | Returned _ => Some (bump_sent b2)
        | Raised _ => Some (bump_errors b2)
        end
    end
  else None.

(** ** Connecting *)

(** The one attempt that [websockets.connect], [aioredis.from_url] or
    [asyncio.open_connection] makes; with nothing listening it is refused. *)
Definition open_connection (b : RustBridge) : RustBridge * outcome nat :=
  match net b with
  | [] => (b, Raised ConnectionRefusedError)
  | Established c :: rest => (set_net rest b, Returned c)
  | Refused e :: rest => (set_net rest b, Raised e)
  end.

Definition _connect_websocket (b : RustBridge) : RustBridge * outcome unit :=
  match open_connection b with
  | (b1, Returned c) =>
      (set_handles (Some c) (redis_client b1) (tcp_reader b1) (tcp_writer b1) b1,
       Returned tt)
  | (b1, Raised e) => (b1, Raised e)
  end.

Definition _connect_redis (b : RustBridge) : RustBridge * outcome unit :=
  match open_connection b with
  | (b1, Returned c) =>
      (set_handles (websocket b1) (Some c) (tcp_reader b1) (tcp_writer b1) b1,
       Returned tt)
  | (b1, Raised e) => (b1, Raised e)
  end.

Definition _connect_tcp (b : RustBridge) : RustBridge * outcome unit :=
  match open_connection b with
  | (b1, Returned c) =>
      (set_handles (websocket b1) (redis_client b1) (Some c) (Some c) b1,
       Returned tt)
  | (b1, Raised e) => (b1, Raised e)
  end.

(** [connect]: the whole body is inside [try ... except Exception]. *)
Definition connect (b : RustBridge) : RustBridge * outcome bool :=
  let '(b1, attempted) :=
    match protocol b with
    | WEBSOCKET => _connect_websocket b
    | REDIS => _connect_redis b
    | TCP => _connect_tcp b
    | NotAMember _ => (b, Returned tt)
    end in
  match attempted with
  | Returned _ => (create_tasks (set_connected true b1), Returned true)
  | Raised _ => (bump_errors b1, Returned false)
  end.

(** [disconnect]: the handles are closed but stay in their attributes. *)
Definition disconnect (b : RustBridge) : RustBridge := set_connected false b.

(** ** Runs of the bridge *)

Inductive event :=
| Connect
| Disconnect
| SendPrediction (prediction : PredictionMessage) (now : Z)
| SendMevOpportunity (opportunity : MEVOpportunityMessage) (now : Z)
| SendMetrics (metrics : pyval) (now : Z)
| SendHeartbeat (now : Z)
| FeedbackCall (t_id t_ts : Z)
| FeedbackWake (w : waiter) (elapsed : Z)
| SenderTurn (io : delivery)
| ReceiverTurn (a : arrival) (now : Z).

Definition step (b : RustBridge) (e : event) : RustBridge :=
  match e with
  | Connect => fst (connect b)
  | Disconnect => disconnect b
  | SendPrediction p now => fst (send_prediction p now b)
  | SendMevOpportunity o now => fst (send_mev_opportunity o now b)
  | SendMetrics m now => fst (send_metrics m now b)
  | SendHeartbeat now => fst (send_heartbeat now b)
  | FeedbackCall t_id t_ts => fst (get_performance_feedback_call t_id t_ts b)
  | FeedbackWake w elapsed =>
      match get_performance_feedback_wake w elapsed b with
      | Some (b1, _) => b1
      | None => b
      end
  | SenderTurn io => default b (_message_sender_turn io b)
  | ReceiverTurn a now => default b (_message_receiver_turn a now b)
  end.

Definition run (es : list event) (b : RustBridge) : RustBridge :=
  fold_left step es b.

(** ** The MEV-detection cycle of main.py *)

Record MEVConfig := {
  min_confidence : float;
  min_profit_threshold : float;
  gas_price_multiplier : float;
  block_time_estimate : Z;
  opportunity_types : list string
}.

Definition default_MEVConfig : MEVConfig :=
  {| min_confidence := 0.8;
     min_profit_threshold := 0.01;
     gas_price_multiplier := 1.2;
     block_time_estimate := 12;
     opportunity_types := ["sandwich"; "arbitrage"; "liquidation"] |}.

Record Metrics := {
  predictions_made : Z;
  mev_opportunities_detected : Z;
  accuracy_score : float;
  uptime_seconds : Z;
  last_prediction_time : option Z
}.

Record AIPredictorSystem := {
  settings_mev : MEVConfig;
  running : bool;
  rust_bridge : RustBridge;
  metrics : Metrics
}.

Definition count_detection (m : Metrics) : Metrics :=
  {| predictions_made := predictions_made m;
     mev_opportunities_detected := mev_opportunities_detected m + 1;
     accuracy_score := accuracy_score m;
     uptime_seconds := uptime_seconds m;
     last_prediction_time := last_prediction_time m |}.

(** The [for opportunity in mev_opportunities] loop; every opportunity comes
    with the clock reading its envelope gets if it is sent. *)
Fixpoint forward_opportunities (found : list (MEVOpportunityMessage * Z))
    (sys : AIPredictorSystem) : AIPredictorSystem :=
  match found with
  | [] => sys
  | (opportunity, now) :: rest =>
      forward_opportunities rest
        (if PrimFloat.ltb (min_confidence (settings_mev sys)) (confidence opportunity)
         then {| settings_mev := settings_mev sys;
                 running := running sys;
                 rust_bridge := fst (send_mev_opportunity opportunity now (rust_bridge sys));
                 metrics := count_detection (metrics sys) |}
         else sys)
  end.

(** One turn of [mev_detection_loop] in which no collaborator raises:
    [mempool_data] is what [get_mempool_data] returned and [found] what
    [detect_opportunities] returned. [None]: the loop has ended. *)
Definition mev_detection_turn (mempool_data : pyval)
    (found : list (MEVOpportunityMessage * Z)) (sys : AIPredictorSystem)
    : option AIPredictorSystem :=
  if running sys then
    Some (if py_truthy mempool_data then forward_opportunities found sys else sys)
  else None.

(** ** Liveness probe and reconnection *)

(** [is_connected]. [probe] is what looking at the handle yields: the value
    of [websocket.closed] or of [tcp_writer.is_closing()], for Redis the
    return of [ping()], or the exception raised on the way, which the bare
    [except] turns into [False]. With the handle unset, [self.websocket and
    ...] is the handle itself, [None]. *)
Definition is_connected (probe : outcome bool) (b : RustBridge) : pyval :=
  if connected b then
    match protocol b with
    | WEBSOCKET =>
        match websocket b with
        | Some _ =>
            match probe with
            | Returned closed => PBool (negb closed)
            | Raised _ => PBool false
            end
        | None => PNone
        end
    | REDIS =>
        match redis_client b with
        | Some _ =>
            match probe with
            | Returned _ => PBool true
            | Raised _ => PBool false
            end
        | None => PBool false
        end
    | TCP =>
        match tcp_writer b with
        | Some _ =>
            match probe with
            | Returned closing => PBool (negb closing)
            | Raised _ => PBool false
            end
        | None => PNone
        end
    | NotAMember _ => PBool false
    end
  else PBool false.


(** [create_prediction_message] of rust_bridge.py; [strategy_params] is
    optional and [None or {}] is the empty dict. *)
Definition create_prediction_message (sym : string) (dir conf : float)
    (horizon : Z) (move : float) (strategy : string)
    (params : option (list (string * pyval))) (now : Z) : PredictionMessage :=
  {| p_symbol := sym;
     p_direction := dir;
     p_confidence := conf;
     p_time_horizon := horizon;
     p_expected_move := move;
     p_timestamp := int_millis now;
     p_strategy_type := strategy;
     p_strategy_params :=
       match params with
       | Some d => if py_truthy (PDict d) then d else []
       | None => []
       end;
     p_model_version := "1.0.0";
     p_features_used := ["price"; "volume"; "volatility"] |}.

(** ** The other cycles of main.py *)

Definition with_bridge (b : RustBridge) (sys : AIPredictorSystem) : AIPredictorSystem :=
  {| settings_mev := settings_mev sys;
     running := running sys;
     rust_bridge := b;
     metrics := metrics sys |}.

Definition with_running (r : bool) (sys : AIPredictorSystem) : AIPredictorSystem :=
  {| settings_mev := settings_mev sys;
     running := r;
     rust_bridge := rust_bridge sys;
     metrics := metrics sys |}.

(** The [for prediction in predictions] loop of [prediction_loop]; every
    prediction comes with the clock reading of its envelope. *)
Fixpoint send_predictions (predictions : list (PredictionMessage * Z))
    (b : RustBridge) : RustBridge :=
  match predictions with
  | [] => b
  | (prediction, now) :: rest =>
      send_predictions rest (fst (send_prediction prediction now b))
  end.

(** One turn of [prediction_loop] in which no collaborator raises:
    [market_data] is what [get_latest_data] returned, [predictions] what
    [generate_predictions] returned, [finished] the reading of
    [datetime.now()] after the sends. *)
Definition prediction_turn (market_data : pyval)
    (predictions : list (PredictionMessage * Z)) (finished : Z)
    (sys : AIPredictorSystem) : option AIPredictorSystem :=
  if running sys then
    if py_truthy market_data then
      Some {| settings_mev := settings_mev sys;
              running := running sys;
              rust_bridge := send_predictions predictions (rust_bridge sys);
              metrics :=
                {| predictions_made :=
                     predictions_made (metrics sys) + Z.of_nat (length predictions);
                   mev_opportunities_detected :=
                     mev_opportunities_detected (metrics sys);
                   accuracy_score := accuracy_score (metrics sys);
                   uptime_seconds := uptime_seconds (metrics sys);
                   last_prediction_time := Some finished |} |}
    else Some sys
  else None.




(** [stop] *)
Definition stop (sys : AIPredictorSystem) : AIPredictorSystem :=
  with_bridge (disconnect (rust_bridge sys)) (with_running false sys).

(** ** config/settings.py *)

Module settings.

Record CommunicationConfig := {
  host : string;
  port : Z;
  protocol : string;
  reconnect_interval : Z;
  heartbeat_interval : Z;
  redis_url : string;
  tcp_keepalive : bool
}.

Record PredictionConfig := {
  interval_seconds : Z;
  confidence_threshold : float;
  max_predictions_per_symbol : Z;
  prediction_horizons : list Z
}.

Record ModelConfig := {
  lstm : list (string * pyval);
  transformer : list (string * pyval);
  random_forest : list (string * pyval);
  xgboost : list (string * pyval);
  model_save_dir : string;
  retrain_interval_hours : Z
}.

(** The sections that [validate] reads. *)
Record Settings := {
  mev : MEVConfig;
  models : ModelConfig;
  prediction : PredictionConfig;
  communication : CommunicationConfig
}.

Definition default_CommunicationConfig : CommunicationConfig :=
  {| host := "localhost"; port := 8080; protocol := "websocket";
     reconnect_interval := 5; heartbeat_interval := 30;
     redis_url := "redis://localhost:6379"; tcp_keepalive := true |}.

Definition default_PredictionConfig : PredictionConfig :=
  {| interval_seconds := 10; confidence_threshold := 0.7;
     max_predictions_per_symbol := 10; prediction_horizons := [5; 15; 30; 60]%Z |}.

Definition default_ModelConfig : ModelConfig :=
  {| lstm := [("hidden_size", PInt 128); ("num_layers", PInt 2);
              ("dropout", PFloat 0.2); ("sequence_length", PInt 60)];
     transformer := [("d_model", PInt 128); ("nhead", PInt 8);
                     ("num_layers", PInt 6); ("dropout", PFloat 0.1)];
     random_forest := [("n_estimators", PInt 100); ("max_depth", PInt 10);
                       ("min_samples_split", PInt 5)];
     xgboost := [("n_estimators", PInt 100); ("max_depth", PInt 6);
                 ("learning_rate", PFloat 0.1)];
     model_save_dir := "saved_models";
     retrain_interval_hours := 24 |}.

Definition default_Settings : Settings :=
  {| mev := default_MEVConfig;
     models := default_ModelConfig;
     prediction := default_PredictionConfig;
     communication := default_CommunicationConfig |}.

(** [d[k]]: a missing key raises. *)
Definition subscript (k : string) (d : list (string * pyval)) : outcome pyval :=
  match dict_get k d with
  | Some v => Returned v
  | None => Raised (KeyError k)
  end.

(** [v > 0]: numbers compare, anything else raises [TypeError]. *)
Definition gt_zero (v : pyval) : outcome bool :=
  match v with
  | PInt z => Returned (0 <? z)%Z
  | PFloat f => Returned (PrimFloat.ltb 0 f)
  | PBool b => Returned b
  | _ => Raised TypeError
  end.

(** [0 <= x <= 1] *)
Definition in_unit_interval (x : float) : bool :=
  PrimFloat.leb 0 x && PrimFloat.leb x 1.

(** [assert d[k] > 0, ...] followed by [rest]: a failed assertion is
    caught by [except AssertionError] and gives [False]; any other
    exception leaves [validate]. *)
Definition assert_positive_entry (k : string) (d : list (string * pyval))
    (rest : outcome bool) : outcome bool :=
  match subscript k d with
  | Returned v =>
      match gt_zero v with
      | Returned true => rest
      | Returned false => Returned false
      | Raised e => Raised e
      end
  | Raised e => Raised e
  end.

(** [Settings.validate] *)
Definition validate (self : Settings) : outcome bool :=
  if negb (py_truthy (PStr (host (communication self)))) then Returned false
  else if negb (0 <? port (communication self))%Z then Returned false
  else if negb (in_unit_interval (confidence_threshold (prediction self)))
    then Returned false
  else if negb (in_unit_interval (min_confidence (mev self))) then Returned false
  else
    assert_positive_entry "hidden_size" (lstm (models self))
      (assert_positive_entry "d_model" (transformer (models self))
         (Returned true)).

End settings.

(** * Vocabulary and scenarios of the properties *)

(** [b'] is [b] with [message] appended to the outbound queue and nothing
    delivered: the transport, the counters and the connection flag are as
    they were. *)
Definition only_queued (b b' : RustBridge) (message : pyval) : Prop :=
  outbound_queue b' = outbound_queue b ++ [message] ∧
  wire b' = wire b ∧
  messages_sent b' = messages_sent b ∧
  messages_received b' = messages_received b ∧
  connection_errors b' = connection_errors b ∧
  connected b' = connected b.

(** The three top-level fields of the wire envelope. *)
Definition full_envelope (message : pyval) : bool :=
  has_key "type" message && has_key "data" message && has_key "timestamp" message.

(** The coming attempt of the network does not succeed. *)
Definition attempt_fails (b : RustBridge) : Prop :=
  match net b with
  | Established _ :: _ => False
  | _ => True
  end.

Definition is_member (proto : CommunicationProtocol) : Prop :=
  match proto with
  | NotAMember _ => False
  | _ => True
  end.

(** The reading of C4 as it is worded: the failure reaches the caller of
    [connect] as an exception. *)
Definition surfaces_exception (b : RustBridge) : Prop :=
  ∃ e, snd (connect b) = Raised e.

(** The envelopes put on the queue so far split into those the sender has
    already taken and those still waiting, and what the transport has
    received is, in order, a selection of the taken ones. *)
Definition in_order (b : RustBridge) : Prop :=
  ∃ taken, enqueued b = taken ++ outbound_queue b ∧
           payload <$> wire b `sublist_of` taken.

(** The handle that the sender of the bridge's protocol writes through is
    set. *)
Definition link_up (b : RustBridge) : bool :=
  match protocol b with
  | WEBSOCKET => bool_decide (is_Some (websocket b))
  | REDIS => bool_decide (is_Some (redis_client b))
  | TCP => bool_decide (is_Some (tcp_writer b))
  | NotAMember _ => false
  end.

(** Redis needs [message['type']] to name the channel. *)
Definition publishable (b : RustBridge) (message : pyval) : bool :=
  match protocol b with
  | REDIS => has_key "type" message
  | _ => true
  end.

Definition three_failures_then_success (e1 e2 e3 : exn) : list event :=
  [SenderTurn (Rejected e1); SenderTurn (Rejected e2); SenderTurn (Rejected e3);
   SenderTurn Accepted].

(** No message is lost between two states: whatever waited in the queue
    is still waiting or has reached the transport. *)
Definition nothing_lost (before after : RustBridge) : Prop :=
  ∀ m, m ∈ outbound_queue before →
       m ∈ outbound_queue after ∨ m ∈ payload <$> wire after.

(** A connected WebSocket bridge with four metrics envelopes waiting. *)
Definition backlog : RustBridge :=
  run [Connect;
       SendMetrics (PInt 1) 1700000000000000; SendMetrics (PInt 2) 1700000001000000;
       SendMetrics (PInt 3) 1700000002000000; SendMetrics (PInt 4) 1700000003000000]
      (init "localhost" 8080 WEBSOCKET [Established 1]).

Definition closed_thrice : list event :=
  three_failures_then_success ConnectionClosed ConnectionClosed ConnectionClosed.

(** Two requests issued 0.5 s apart within one second of the clock, on a
    fresh bridge. *)
Definition first_request : RustBridge * (waiter + outcome pyval) :=
  get_performance_feedback_call 1700000000200000 1700000000200000
    (init "localhost" 8080 WEBSOCKET []).

Definition second_request : RustBridge * (waiter + outcome pyval) :=
  get_performance_feedback_call 1700000000700000 1700000000700000
    (fst first_request).

Definition first_waiter : waiter :=
  {| request_id := "feedback_1700000000"; awaited := 0 |}.
Definition second_waiter : waiter :=
  {| request_id := "feedback_1700000000"; awaited := 1 |}.

(** No entry of the table points outside the store of futures. *)
Definition table_in_range (b : RustBridge) : Prop :=
  ∀ k f, response_futures b !! k = Some f → f < length (futures b).

(** The future of the waiter exists and, as long as it is pending, the
    table holds it under the waiter's request id and under no other key. *)
Definition alone (w : waiter) (b : RustBridge) : Prop :=
  awaited w < length (futures b) ∧
  table_in_range b ∧
  (futures b !! awaited w = Some Pending →
   response_futures b !! request_id w = Some (awaited w) ∧
   ∀ k, response_futures b !! k = Some (awaited w) → k = request_id w).

(** An event that is neither a feedback request under the waiter's request
    id nor the waking of another waiter with that id or that future. *)
Definition foreign (w : waiter) (e : event) : Prop :=
  match e with
  | FeedbackCall t_id _ => feedback_request_id t_id ≠ request_id w
  | FeedbackWake w' _ => request_id w' ≠ request_id w ∧ awaited w' ≠ awaited w
  | _ => True
  end.

Definition idle_system : AIPredictorSystem :=
  {| settings_mev := default_MEVConfig;
     running := true;
     rust_bridge := init "localhost" 8080 WEBSOCKET [];
     metrics := {| predictions_made := 0; mev_opportunities_detected := 0;
                   accuracy_score := 0; uptime_seconds := 0;
                   last_prediction_time := None |} |}.


(** A value that can be looked up in a dict: anything but a list or a dict. *)
Definition hashable (v : pyval) : Prop :=
  match v with
  | PList _ | PDict _ => False
  | _ => True
  end.

(** The handle that the receiver of the bridge's protocol reads from is
    set; the Redis variant reads from nothing. *)
Definition inbound_up (b : RustBridge) : bool :=
  match protocol b with
  | WEBSOCKET => bool_decide (is_Some (websocket b))
  | TCP => bool_decide (is_Some (tcp_reader b))
  | _ => false
  end.

(** A decoded text the handler can do nothing with: not a JSON object, an
    empty object, or a [feedback_response] whose request id is a list or an
    object. *)
Definition unusable (message : pyval) : Prop :=
  match message with
  | PDict d =>
      d = [] ∨
      (py_get "type" d = PStr "feedback_response" ∧ ¬ hashable (py_get "request_id" d))
  | _ => True
  end.

(** [b'] is [b] with [added] put on the queue, nothing taken from it and
    nothing written; the sender's counters, the connection flag, the
    protocol and the network are as they were. *)
Definition grows_by (added : list pyval) (b b' : RustBridge) : Prop :=
  outbound_queue b' = outbound_queue b ++ added ∧
  enqueued b' = enqueued b ++ added ∧
  wire b' = wire b ∧
  messages_sent b' = messages_sent b ∧
  connection_errors b' = connection_errors b ∧
  connected b' = connected b ∧
  net b' = net b ∧
  protocol b' = protocol b.



(** The probe of [is_connected] found the handle usable: it did not raise
    and, outside Redis, did not report the handle closed. *)
Definition probe_alive (proto : CommunicationProtocol) (probe : outcome bool) : Prop :=
  match probe with
  | Raised _ => False
  | Returned x =>
      match proto with
      | REDIS => True
      | _ => x = false
      end
  end.

(** The opportunities of a scan whose confidence is strictly above the
    threshold. *)
Definition forwarded (threshold : float) (found : list (MEVOpportunityMessage * Z))
    : list (MEVOpportunityMessage * Z) :=
  List.filter (λ x, PrimFloat.ltb threshold (confidence (fst x))) found.

(** * Properties *)

(** ** Shared facts *)

Lemma _send_message_only_queued message b :
  only_queued b (fst (_send_message message b)) message.
Proof. by repeat split. Qed.

Lemma prediction_envelope_full prediction now :
  full_envelope (prediction_envelope prediction now) = true.
Proof. reflexivity. Qed.

Lemma mev_envelope_full opportunity now :
  full_envelope (mev_envelope opportunity now) = true.
Proof. reflexivity. Qed.

Lemma metrics_envelope_full m now : full_envelope (metrics_envelope m now) = true.
Proof. reflexivity. Qed.

Lemma status_response_full now b : full_envelope (status_response now b) = true.
Proof. reflexivity. Qed.

(** ** C10: the boolean of a send only reports the enqueue *)

(** C10. In every bridge state, whatever [connected] is, each of
    [send_prediction], [send_mev_opportunity], [send_metrics] and
    [send_heartbeat] returns [True]; all it has done is append its envelope
    to the outbound queue: nothing was written to the transport and
    [messages_sent] did not move. *)
Theorem send_returns_true_on_enqueue
    (b : RustBridge) (prediction : PredictionMessage)
    (opportunity : MEVOpportunityMessage) (m : pyval) (now : Z) :
  (snd (send_prediction prediction now b) = true ∧
   only_queued b (fst (send_prediction prediction now b))
     (prediction_envelope prediction now)) ∧
  (snd (send_mev_opportunity opportunity now b) = true ∧
   only_queued b (fst (send_mev_opportunity opportunity now b))
     (mev_envelope opportunity now)) ∧
  (snd (send_metrics m now b) = true ∧
   only_queued b (fst (send_metrics m now b)) (metrics_envelope m now)) ∧
  (snd (send_heartbeat now b) = true ∧
   only_queued b (fst (send_heartbeat now b)) (heartbeat_envelope now b)).
Proof.
  repeat split.
Qed.

(** ** C3: a status request is answered with one status response *)

(** C3. Handling a received dict whose [type] is ["status_request"] returns
    normally and appends exactly one envelope to the outbound queue; that
    envelope has type ["status_response"] and its data carry
    [connected = True] and the values that [messages_sent],
    [messages_received] and [connection_errors] have at that moment. The
    counters themselves and the correlation table are left as they were. *)
Theorem status_request_answered
    (d : list (string * pyval)) (now : Z) (b : RustBridge) :
  py_get "type" d = PStr "status_request" →
  let b' := fst (_handle_received_message (PDict d) now b) in
  snd (_handle_received_message (PDict d) now b) = Returned tt ∧
  ∃ envelope data,
    only_queued b b' (PDict envelope) ∧
    response_futures b' = response_futures b ∧
    py_get "type" envelope = PStr "status_response" ∧
    py_get "data" envelope = PDict data ∧
    py_get "connected" data = PBool true ∧
    py_get "messages_sent" data = PInt (messages_sent b) ∧
    py_get "messages_received" data = PInt (messages_received b) ∧
    py_get "connection_errors" data = PInt (connection_errors b).
Proof.
  intros Hty. unfold _handle_received_message. rewrite Hty. simpl.
  split; [done|].
  eexists _, _. split; [apply _send_message_only_queued|].
  repeat split.
Qed.

Lemma status_request_answered_witness :
  let d := [("type", PStr "status_request"); ("timestamp", PInt 1700000000000)] in
  let b := bump_errors (bump_sent (init "localhost" 8080 WEBSOCKET [])) in
  py_get "type" d = PStr "status_request" ∧
  snd (_handle_received_message (PDict d) 1700000000250000 b) = Returned tt.
Proof.
  split; [reflexivity|].
  apply (status_request_answered
           [("type", PStr "status_request"); ("timestamp", PInt 1700000000000)]
           1700000000250000
           (bump_errors (bump_sent (init "localhost" 8080 WEBSOCKET [])))).
  reflexivity.
Defined.

(** ** C6: which senders build the full envelope *)

(** C6. What [send_heartbeat] puts on the queue has no top-level
    ["timestamp"] (the timestamp sits inside ["data"]), and what
    [get_performance_feedback] puts on the queue has no ["data"]: neither
    is an envelope with the three fields, in any state and at any clock
    reading. *)
Theorem heartbeat_and_feedback_envelopes_incomplete (now t_id t_ts : Z) (b : RustBridge) :
  (outbound_queue (fst (send_heartbeat now b))
     = outbound_queue b ++ [heartbeat_envelope now b] ∧
   has_key "timestamp" (heartbeat_envelope now b) = false ∧
   full_envelope (heartbeat_envelope now b) = false) ∧
  (outbound_queue (fst (get_performance_feedback_call t_id t_ts b))
     = outbound_queue b ++ [feedback_envelope t_id t_ts] ∧
   has_key "data" (feedback_envelope t_id t_ts) = false ∧
   full_envelope (feedback_envelope t_id t_ts) = false).
Proof.
  repeat split.
Qed.

(** ** C8: the Redis receive path *)

(** C8. Under the Redis variant the receive operation returns [None]
    whatever arrives, a published message included, and a turn of the
    receiver loop on a connected bridge therefore never reaches the
    handler: the state is unchanged, [messages_received] included. *)
Theorem redis_receive_returns_nothing (a : arrival) (now : Z) (b : RustBridge) :
  protocol b = REDIS →
  connected b = true →
  _receive_redis a b = Returned None ∧
  _message_receiver_turn a now b = Some b.
Proof.
  intros Hproto Hconn. split; [reflexivity|].
  unfold _message_receiver_turn. by rewrite Hconn, Hproto.
Qed.

Lemma redis_receive_returns_nothing_witness :
  let published := Decoded (PDict [("type", PStr "status_request")]) in
  let b := set_connected true (init "localhost" 6379 REDIS []) in
  _receive_redis published b = Returned None ∧
  _message_receiver_turn published 1700000000000000 b = Some b.
Proof.
  apply (redis_receive_returns_nothing
           (Decoded (PDict [("type", PStr "status_request")])) 1700000000000000
           (set_connected true (init "localhost" 6379 REDIS []))); reflexivity.
Defined.

(** ** C4: a failed connection attempt *)

Lemma open_connection_fails b :
  attempt_fails b →
  ∃ e, open_connection b = (set_net (tail (net b)) b, Raised e).
Proof.
  unfold attempt_fails, open_connection.
  destruct b as [? ? ? ? ? ? ? ? ? ? ? ? ? ? n ? ? ?]; simpl.
  destruct n as [|[c|e] rest]; intros H; try done; eauto.
Qed.

(** C4 as worded fails: with the attempt refused, [connect] raises
    nothing; the caller gets the value [False]. *)
Lemma connect_failure_is_not_raised :
  let b := init "localhost" 8080 WEBSOCKET [Refused ConnectionRefusedError] in
  attempt_fails b ∧ snd (connect b) = Returned false ∧ ¬ surfaces_exception b.
Proof.
  split; [exact I|]. split; [reflexivity|].
  intros [e He]. discriminate He.
Qed.

(** C4, amended. For each of the three protocol members, when the
    connection attempt fails, [connect] returns [False] to its caller (no
    exception leaves it), [connection_errors] grows by exactly one, and
    exactly that one attempt was made: the rest of the network's answers is
    untouched, no task was created and [connected] is as before. *)
Theorem connect_failure_returns_false (b : RustBridge) :
  is_member (protocol b) →
  attempt_fails b →
  let b' := fst (connect b) in
  snd (connect b) = Returned false ∧
  connection_errors b' = (connection_errors b + 1)%Z ∧
  net b' = tail (net b) ∧
  spawned b' = spawned b ∧
  connected b' = connected b ∧
  outbound_queue b' = outbound_queue b.
Proof.
  intros Hmem Hfail.
  destruct (open_connection_fails b Hfail) as [e He].
  unfold connect, _connect_websocket, _connect_redis, _connect_tcp.
  destruct (protocol b); try done; rewrite He; by repeat split.
Qed.

Lemma connect_failure_returns_false_witness :
  let b := init "localhost" 6379 REDIS [Refused ConnectionRefusedError; Established 7] in
  snd (connect b) = Returned false ∧
  connection_errors (fst (connect b)) = 1%Z ∧
  net (fst (connect b)) = [Established 7].
Proof.
  pose proof (connect_failure_returns_false
    (init "localhost" 6379 REDIS [Refused ConnectionRefusedError; Established 7]) I I)
    as (Hret & Herr & Hnet & _).
  split; [exact Hret | split; [exact Herr | exact Hnet]].
Defined.

(** ** C1: the transport sees the envelopes in enqueue order *)

Lemma in_order_init h p proto network : in_order (init h p proto network).
Proof. exists []. split; [done|]. simpl. constructor. Qed.

Lemma in_order_untouched b b' :
  enqueued b' = enqueued b →
  outbound_queue b' = outbound_queue b →
  wire b' = wire b →
  in_order b → in_order b'.
Proof.
  intros He Hq Hw (taken & Hsplit & Hsub). exists taken.
  by rewrite He, Hq, Hw.
Qed.

Lemma in_order_send_message message b :
  in_order b → in_order (fst (_send_message message b)).
Proof.
  intros (taken & Hsplit & Hsub). exists taken. simpl.
  split; [by rewrite Hsplit, app_assoc | done].
Qed.

(** The sender takes the head of the queue and the transport receives it
    or not. *)
Lemma in_order_taken b b' message rest :
  outbound_queue b = message :: rest →
  enqueued b' = enqueued b →
  outbound_queue b' = rest →
  (wire b' = wire b ∨ ∃ f, wire b' = wire b ++ [f] ∧ payload f = message) →
  in_order b → in_order b'.
Proof.
  intros Hq He Hq' Hw (taken & Hsplit & Hsub).
  exists (taken ++ [message]). split.
  - by rewrite He, Hq', Hsplit, Hq, <-app_assoc.
  - destruct Hw as [-> | (f & -> & <-)].
    + by apply sublist_inserts_r.
    + rewrite fmap_app. by apply sublist_app.
Qed.

Lemma in_order_sender_turn io b b' :
  _message_sender_turn io b = Some b' → in_order b → in_order b'.
Proof.
  unfold _message_sender_turn.
  destruct (connected b); [|done].
  destruct (outbound_queue b) as [|message rest] eqn:Hq.
  { by intros [= <-]. }
  unfold _send_websocket, _send_redis, _send_tcp; simpl.
  intros Hturn Hord.
  apply (in_order_taken b b' message rest Hq); [ | | |exact Hord];
    destruct (protocol b), (websocket b), (redis_client b), (tcp_writer b), io;
    try destruct message as [| | | | | |d];
    try destruct (dict_get "type" d);
    simplify_eq/=; eauto.
Qed.

Lemma in_order_handle message now b :
  in_order b → in_order (fst (_handle_received_message message now b)).
Proof.
  intros Hord. unfold _handle_received_message.
  destruct message as [| | | | | |d]; try done.
  destruct (py_eq_str (py_get "type" d) "feedback_response").
  { destruct (py_get "request_id" d) as [| | | |rid| |]; try done.
    destruct (response_futures b !! rid) as [fut|]; [|done]. simpl.
    unfold resolve; simpl.
    destruct (futures b !! fut) as [f|]; [destruct (future_done f)|];
      by apply (in_order_untouched b). }
  destruct (py_eq_str (py_get "type" d) "config_update"); [done|].
  destruct (py_eq_str (py_get "type" d) "status_request"); [|done].
  by apply in_order_send_message.
Qed.

Lemma in_order_receiver_turn a now b b' :
  _message_receiver_turn a now b = Some b' → in_order b → in_order b'.
Proof.
  unfold _message_receiver_turn. intros Hturn Hord.
  destruct (connected b); [|done].
  assert (∀ r : outcome (option pyval),
    match r with
    | Returned (Some message) =>
        if py_truthy message then
          match _handle_received_message message now b with
          | (b1, Returned _) => Some (bump_received b1)
          | (b1, Raised _) => Some b1
          end
        else Some b
    | _ => Some b
    end = Some b' → in_order b') as Hcase.
  { intros [[message|]|e]; try by intros [= <-].
    destruct (py_truthy message); [|by intros [= <-]].
    pose proof (in_order_handle message now b Hord) as Hh.
    destruct (_handle_received_message message now b) as [b1 [u|e]];
      intros [= <-]; [by apply (in_order_untouched b1)|done]. }
  destruct (protocol b); try (by simplify_eq); by apply Hcase in Hturn.
Qed.

Lemma in_order_connect b : in_order b → in_order (fst (connect b)).
Proof.
  intros Hord. apply (in_order_untouched b); [| | |done];
    unfold connect, _connect_websocket, _connect_redis, _connect_tcp,
      open_connection;
    destruct (protocol b), (net b) as [|[c|e] rest]; done.
Qed.

Lemma in_order_feedback_call t_id t_ts b :
  in_order b → in_order (fst (get_performance_feedback_call t_id t_ts b)).
Proof.
  intros (taken & Hsplit & Hsub). exists taken. simpl.
  split; [by rewrite Hsplit, app_assoc | done].
Qed.

Lemma in_order_feedback_wake w elapsed b b' r :
  get_performance_feedback_wake w elapsed b = Some (b', r) →
  in_order b → in_order b'.
Proof.
  unfold get_performance_feedback_wake. intros Hwake Hord.
  apply (in_order_untouched b); [| | |done];
    destruct (futures b !! awaited w) as [[| |]|];
    try destruct (feedback_timeout <=? elapsed)%Z; simpl in *;
    try destruct (response_futures b !! request_id w);
    by simplify_eq/=.
Qed.

Lemma in_order_step e b : in_order b → in_order (step b e).
Proof.
  intros Hord. destruct e; simpl.
  - by apply in_order_connect.
  - by apply (in_order_untouched b).
  - by apply in_order_send_message.
  - by apply in_order_send_message.
  - by apply in_order_send_message.
  - by apply in_order_send_message.
  - by apply in_order_feedback_call.
  - destruct (get_performance_feedback_wake w elapsed b) as [[b1 r]|] eqn:Hw;
      [by eapply in_order_feedback_wake|done].
  - destruct (_message_sender_turn io b) as [b1|] eqn:Ht;
      [by eapply in_order_sender_turn|done].
  - destruct (_message_receiver_turn a now b) as [b1|] eqn:Ht;
      [by eapply in_order_receiver_turn|done].
Qed.

Lemma in_order_run es b : in_order b → in_order (run es b).
Proof.
  revert b. induction es as [|e es IH]; intros b Hord; [done|].
  apply IH. by apply in_order_step.
Qed.

(** C1. Along every run of a bridge from its construction (any
    interleaving of producers, feedback requests, connection changes and
    turns of the sender and receiver loops, with any behaviour of the
    transport), the messages that reached the transport form, in the order
    they were written, a sub-sequence of the envelopes in the order they
    were put on the queue: of two envelopes that are both written, the one
    enqueued first is written first. *)
Theorem written_in_enqueue_order
    (es : list event) (h : string) (p : Z) (proto : CommunicationProtocol)
    (network : list attempt) :
  payload <$> wire (run es (init h p proto network))
    `sublist_of` enqueued (run es (init h p proto network)).
Proof.
  destruct (in_order_run es _ (in_order_init h p proto network))
    as (taken & Hsplit & Hsub).
  rewrite Hsplit. by apply sublist_inserts_r.
Qed.

(** *** The order of pairs, spelled out *)

(** A sub-sequence keeps the order of any two of its positions. *)
Lemma sublist_keeps_order (l1 l2 : list pyval) :
  l1 `sublist_of` l2 →
  ∀ (i j : nat) (A B : pyval),
    i < j → l1 !! i = Some A → l1 !! j = Some B →
    ∃ i' j' : nat, i' < j' ∧ l2 !! i' = Some A ∧ l2 !! j' = Some B.
Proof.
  induction 1 as [|x l1 l2 Hsub IH|x l1 l2 Hsub IH]; intros i j A B Hlt HA HB.
  - by rewrite lookup_nil in HA.
  - destruct j as [|j]; [lia|]. destruct i as [|i].
    + simpl in HA, HB. injection HA as ->.
      assert (B ∈ l2) as [j' Hj']%list_elem_of_lookup.
      { eapply elem_of_sublist; [|done]. apply list_elem_of_lookup. eauto. }
      exists 0, (S j'). split; [lia|]. by split.
    + simpl in HA, HB.
      destruct (IH i j A B ltac:(lia) HA HB) as (i' & j' & Hlt' & HA' & HB').
      exists (S i'), (S j'). split; [lia|]. by split.
  - destruct (IH i j A B Hlt HA HB) as (i' & j' & Hlt' & HA' & HB').
    exists (S i'), (S j'). split; [lia|]. by split.
Qed.

(** Whenever the transport received [A] at an earlier position than [B],
    the queue was given [A] at an earlier position than [B]. *)
Lemma written_pairs_follow_enqueue_order
    (es : list event) (h : string) (p : Z) (proto : CommunicationProtocol)
    (network : list attempt) (i j : nat) (A B : pyval) :
  i < j →
  (payload <$> wire (run es (init h p proto network))) !! i = Some A →
  (payload <$> wire (run es (init h p proto network))) !! j = Some B →
  ∃ i' j' : nat, i' < j' ∧
    enqueued (run es (init h p proto network)) !! i' = Some A ∧
    enqueued (run es (init h p proto network)) !! j' = Some B.
Proof.
  destruct (in_order_run es _ (in_order_init h p proto network))
    as (taken & Hsplit & Hsub).
  apply sublist_keeps_order. rewrite Hsplit. by apply sublist_inserts_r.
Qed.

(** ** C5: three failed writes, then a successful one *)

Lemma sender_turn_rejected e b message rest :
  connected b = true →
  link_up b = true →
  outbound_queue b = message :: rest →
  _message_sender_turn (Rejected e) b = Some (bump_errors (set_queue rest b)).
Proof.
  unfold _message_sender_turn, link_up. intros -> Hup ->.
  unfold _send_websocket, _send_redis, _send_tcp; simpl.
  destruct (protocol b); try done.
  - by destruct (websocket b).
  - destruct (redis_client b); [|done].
    destruct message as [| | | | | |d]; try done.
    by destruct (dict_get "type" d).
  - by destruct (tcp_writer b).
Qed.

Lemma sender_turn_accepted b message rest :
  connected b = true →
  link_up b = true →
  publishable b message = true →
  outbound_queue b = message :: rest →
  ∃ f, payload f = message ∧
       _message_sender_turn Accepted b
       = Some (bump_sent (transmit f (set_queue rest b))).
Proof.
  unfold _message_sender_turn, link_up, publishable. intros -> Hup Hpub ->.
  unfold _send_websocket, _send_redis, _send_tcp; simpl.
  destruct (protocol b); try done.
  - destruct (websocket b); [|done]. by exists (WsFrame message).
  - destruct (redis_client b); [|done].
    destruct message as [| | | | | |d]; try done. simpl in Hpub.
    destruct (dict_get "type" d) as [ty|] eqn:Hty; [|done].
    by exists (RedisPublish ty (PDict d)).
  - destruct (tcp_writer b); [|done]. by exists (TcpLine message).
Qed.

(** With nothing queued, turns of the sender change nothing. *)
Lemma sender_turns_idle ios b :
  outbound_queue b = [] → run (SenderTurn <$> ios) b = b.
Proof.
  intros Hq. induction ios as [|io ios IH]; [done|].
  assert (step b (SenderTurn io) = b) as Hstep.
  { simpl. unfold _message_sender_turn. rewrite Hq. by destruct (connected b). }
  unfold run in *.
  change (fold_left step (SenderTurn <$> ios) (step b (SenderTurn io)) = b).
  by rewrite Hstep.
Qed.

(** C5, amended. On a connected bridge whose transport handle is set, let
    the writes of the next three queued messages fail and the write of the
    fourth succeed. Then [connection_errors] has grown by exactly 3 and
    [messages_sent] by 1, the three messages whose write failed are gone
    from the queue without having reached the transport (they are dropped,
    not retried), the fourth is the only one written, the messages behind
    it are still queued in order, and the loop is still running: the bridge
    is still connected and the next turn of the sender takes place. *)
Theorem three_failed_writes_then_success
    (b : RustBridge) (m1 m2 m3 m4 : pyval) (rest : list pyval)
    (e1 e2 e3 : exn) :
  connected b = true →
  link_up b = true →
  publishable b m4 = true →
  outbound_queue b = m1 :: m2 :: m3 :: m4 :: rest →
  let b' := run (three_failures_then_success e1 e2 e3) b in
  connection_errors b' = (connection_errors b + 3)%Z ∧
  messages_sent b' = (messages_sent b + 1)%Z ∧
  outbound_queue b' = rest ∧
  payload <$> wire b' = (payload <$> wire b) ++ [m4] ∧
  connected b' = true ∧
  ∀ io, is_Some (_message_sender_turn io b').
Proof.
  intros Hconn Hup Hpub Hq. unfold run, three_failures_then_success. simpl.
  rewrite (sender_turn_rejected e1 b m1 _ Hconn Hup Hq). simpl.
  rewrite (sender_turn_rejected e2 _ m2 (m3 :: m4 :: rest)); [|done..]. simpl.
  rewrite (sender_turn_rejected e3 _ m3 (m4 :: rest)); [|done..]. simpl.
  edestruct (sender_turn_accepted
    (bump_errors (set_queue (m4 :: rest) (bump_errors (set_queue (m3 :: m4 :: rest)
       (bump_errors (set_queue (m2 :: m3 :: m4 :: rest) b))))))
    m4 rest) as (f & Hf & ->); [done..|].
  simpl. repeat split.
  - lia.
  - rewrite fmap_app. simpl. by rewrite Hf.
  - done.
  - intros io. unfold _message_sender_turn. simpl. rewrite Hconn.
    destruct rest as [|m rest']; [by eexists|].
    unfold _send_websocket, _send_redis, _send_tcp; simpl.
    destruct (protocol b), (websocket b), (redis_client b), (tcp_writer b), io;
      try destruct m as [| | | | | |d]; try destruct (dict_get "type" d);
      by eexists.
Qed.

Lemma three_failed_writes_then_success_witness :
  connection_errors (run closed_thrice backlog) = 3%Z ∧
  messages_sent (run closed_thrice backlog) = 1%Z ∧
  outbound_queue (run closed_thrice backlog) = [] ∧
  payload <$> wire (run closed_thrice backlog)
    = [metrics_envelope (PInt 4) 1700000003000000].
Proof.
  pose proof (three_failed_writes_then_success backlog
    (metrics_envelope (PInt 1) 1700000000000000)
    (metrics_envelope (PInt 2) 1700000001000000)
    (metrics_envelope (PInt 3) 1700000002000000)
    (metrics_envelope (PInt 4) 1700000003000000) []
    ConnectionClosed ConnectionClosed ConnectionClosed
    eq_refl eq_refl eq_refl eq_refl) as (Herr & Hsent & Hq & Hw & _).
  split; [exact Herr|]. split; [exact Hsent|]. split; [exact Hq | exact Hw].
Defined.

(** C5 as worded fails: after three failed writes and a successful one the
    error counter of a fresh bridge does read 3, but the three messages
    whose write failed are neither queued nor on the transport, and no
    later turn of the sender ever writes the first of them. *)
Lemma failed_writes_lose_messages :
  connection_errors (run closed_thrice backlog) = 3%Z ∧
  ¬ nothing_lost backlog (run closed_thrice backlog) ∧
  ∀ ios, metrics_envelope (PInt 1) 1700000000000000
         ∉ payload <$> wire (run (SenderTurn <$> ios) (run closed_thrice backlog)).
Proof.
  assert (outbound_queue (run closed_thrice backlog) = []) as Hq by reflexivity.
  assert (payload <$> wire (run closed_thrice backlog)
          = [metrics_envelope (PInt 4) 1700000003000000]) as Hw by reflexivity.
  assert (metrics_envelope (PInt 1) 1700000000000000
          ∉ payload <$> wire (run closed_thrice backlog)) as Hnot.
  { rewrite Hw. intros Hin. apply list_elem_of_singleton in Hin. discriminate Hin. }
  split; [reflexivity|]. split.
  - intros Hkept.
    destruct (Hkept (metrics_envelope (PInt 1) 1700000000000000)) as [Hin|Hin].
    + change (outbound_queue backlog) with
        [metrics_envelope (PInt 1) 1700000000000000;
         metrics_envelope (PInt 2) 1700000001000000;
         metrics_envelope (PInt 3) 1700000002000000;
         metrics_envelope (PInt 4) 1700000003000000].
      apply list_elem_of_here.
    + rewrite Hq in Hin. by apply not_elem_of_nil in Hin.
    + done.
  - intros ios. by rewrite (sender_turns_idle ios _ Hq).
Qed.

(** ** C7 and C2: request ids and the pending slots *)

(** Two clock readings in the same second give the same request id. *)
Lemma same_second_same_request_id (t1 t2 : Z) :
  int_seconds t1 = int_seconds t2 →
  feedback_request_id t1 = feedback_request_id t2.
Proof. unfold feedback_request_id. by intros ->. Qed.

(** Readings in different seconds give different ids. *)
Lemma other_second_other_request_id (t1 t2 : Z) :
  int_seconds t1 ≠ int_seconds t2 →
  feedback_request_id t1 ≠ feedback_request_id t2.
Proof.
  unfold feedback_request_id. intros Hne Heq. apply Hne.
  apply (inj (String.app "feedback_")) in Heq.
  by apply (inj pretty) in Heq.
Qed.

(** C7. The two requests get the same request id, and the second takes
    over the pending slot of the first: the table holds one entry, for the
    second future, and the first future, still pending, is no longer
    reachable from the table. A response carrying that id then resolves
    the second future only; the first one stays pending with no entry
    left, so the first request cannot be resolved with a value. *)
Theorem same_second_requests_share_slot :
  snd first_request = inl first_waiter ∧
  snd second_request = inl second_waiter ∧
  request_id first_waiter = request_id second_waiter ∧
  response_futures (fst first_request) !! "feedback_1700000000" = Some 0 ∧
  response_futures (fst second_request) !! "feedback_1700000000" = Some 1 ∧
  size (response_futures (fst second_request)) = 1 ∧
  futures (fst second_request) = [Pending; Pending] ∧
  let response := PDict [ ("type", PStr "feedback_response");
                          ("request_id", PStr "feedback_1700000000");
                          ("data", PDict [("accuracy", PInt 1)]) ] in
  let b := fst (_handle_received_message response 1700000001000000
                  (fst second_request)) in
  futures b = [Pending; Done (PDict [("accuracy", PInt 1)])] ∧
  response_futures b = ∅.
Proof.
  repeat split; vm_compute; reflexivity.
Qed.

(** The timeout branch alone: when the slot of the waiter is in the table,
    the timeout returns [None] and removes it. *)
Lemma timeout_releases_slot (w : waiter) (elapsed : Z) (b : RustBridge) :
  futures b !! awaited w = Some Pending →
  (feedback_timeout ≤ elapsed)%Z →
  is_Some (response_futures b !! request_id w) →
  ∃ b', get_performance_feedback_wake w elapsed b = Some (b', Returned PNone) ∧
        response_futures b' !! request_id w = None.
Proof.
  intros Hfut Hlate [fut Hslot]. unfold get_performance_feedback_wake.
  rewrite Hfut. apply Z.leb_le in Hlate. rewrite Hlate. simpl. rewrite Hslot.
  eexists. split; [done|]. simpl. apply lookup_delete_eq.
Qed.

(** *** The timeout of a request that is alone under its id *)

Lemma resolve_table fut v b : response_futures (resolve fut v b) = response_futures b.
Proof. unfold resolve. by destruct (futures b !! fut) as [[| |]|]. Qed.

Lemma resolve_length fut v b : length (futures (resolve fut v b)) = length (futures b).
Proof.
  unfold resolve. destruct (futures b !! fut) as [[| |]|]; simpl; try done.
  by rewrite length_insert.
Qed.

Lemma resolve_still_pending fut v b (i : nat) :
  futures (resolve fut v b) !! i = Some Pending →
  futures b !! i = Some Pending ∧ i ≠ fut.
Proof.
  destruct (decide (i = fut)) as [->|Hne].
  - unfold resolve. destruct (futures b !! fut) as [[| |]|] eqn:Hf; simpl;
      try (rewrite Hf; done).
    rewrite list_lookup_insert_eq; [done|]. by eapply lookup_lt_Some.
  - unfold resolve. destruct (futures b !! fut) as [[| |]|]; simpl; try done.
    by rewrite list_lookup_insert_ne.
Qed.

Lemma sender_turn_keeps_futures io b b' :
  _message_sender_turn io b = Some b' →
  futures b' = futures b ∧ response_futures b' = response_futures b.
Proof.
  unfold _message_sender_turn, _send_websocket, _send_redis, _send_tcp.
  destruct (connected b); [|done].
  destruct (outbound_queue b) as [|message rest]; [by intros [= <-]|]. simpl.
  destruct (protocol b), (websocket b), (redis_client b), (tcp_writer b), io;
    try destruct message as [| | | | | |d];
    try destruct (dict_get "type" d);
    by intros [= <-].
Qed.

Lemma alone_untouched w b b' :
  futures b' = futures b →
  response_futures b' = response_futures b →
  alone w b → alone w b'.
Proof. unfold alone, table_in_range. by intros -> ->. Qed.

Lemma table_in_range_init h p proto network :
  table_in_range (init h p proto network).
Proof. intros k f. simpl. by rewrite lookup_empty. Qed.

Lemma alone_after_call t_id t_ts b b1 w :
  table_in_range b →
  get_performance_feedback_call t_id t_ts b = (b1, inl w) →
  alone w b1.
Proof.
  intros Hrange [= <- <-]. unfold alone, table_in_range. simpl.
  rewrite length_app. simpl. split; [lia|]. split.
  - intros k f [[_ <-]|[_ Hk]]%lookup_insert_Some; [lia|].
    apply Hrange in Hk. lia.
  - intros _. split; [by rewrite lookup_insert_eq|].
    intros k [[<- _]|[_ Hk]]%lookup_insert_Some; [done|].
    apply Hrange in Hk. lia.
Qed.

Lemma alone_handle w message now b :
  alone w b → alone w (fst (_handle_received_message message now b)).
Proof.
  intros Halone. unfold _handle_received_message.
  destruct message as [| | | | | |d]; try done.
  destruct (py_eq_str (py_get "type" d) "feedback_response"); cycle 1.
  { destruct (py_eq_str (py_get "type" d) "config_update"); [done|].
    destruct (py_eq_str (py_get "type" d) "status_request"); [|done].
    by apply (alone_untouched w b). }
  destruct (py_get "request_id" d) as [| | | |rid| |]; try done.
  destruct (response_futures b !! rid) as [fut|] eqn:Hrid; [|done]. simpl.
  destruct Halone as (Hlt & Hrange & Hown).
  unfold alone, table_in_range.
  rewrite resolve_length, resolve_table. simpl. split; [done|]. split.
  - intros k f [_ Hk]%lookup_delete_Some. by eapply Hrange.
  - intros [Hpend Hne]%resolve_still_pending. simpl in Hpend.
    destruct (Hown Hpend) as [Hslot Huniq].
    assert (rid ≠ request_id w) as Hrid_ne.
    { intros ->. rewrite Hslot in Hrid. by simplify_eq. }
    split; [by rewrite lookup_delete_ne|].
    intros k [_ Hk]%lookup_delete_Some. by apply Huniq.
Qed.

Lemma alone_step w e b : foreign w e → alone w b → alone w (step b e).
Proof.
  intros Hforeign Halone. destruct e; simpl.
  - apply (alone_untouched w b); [| |done];
      unfold connect, _connect_websocket, _connect_redis, _connect_tcp,
        open_connection;
      destruct (protocol b), (net b) as [|[c|e] rest]; done.
  - by apply (alone_untouched w b).
  - by apply (alone_untouched w b).
  - by apply (alone_untouched w b).
  - by apply (alone_untouched w b).
  - by apply (alone_untouched w b).
  - simpl in Hforeign. destruct Halone as (Hlt & Hrange & Hown).
    unfold alone, table_in_range. simpl. rewrite length_app. simpl.
    split; [lia|]. split.
    + intros k f [[_ <-]|[_ Hk]]%lookup_insert_Some; [lia|].
      apply Hrange in Hk. lia.
    + rewrite lookup_app_l by done. intros Hpend.
      destruct (Hown Hpend) as [Hslot Huniq].
      split; [by rewrite lookup_insert_ne|].
      intros k [[_ Hk]|[_ Hk]]%lookup_insert_Some; [lia|by apply Huniq].
  - simpl in Hforeign. destruct Hforeign as [Hrid Hfut].
    unfold get_performance_feedback_wake.
    destruct (futures b !! awaited w0) as [[| |]|]; try done.
    destruct (feedback_timeout <=? elapsed)%Z; [|done]. simpl.
    destruct Halone as (Hlt & Hrange & Hown).
    destruct (response_futures b !! request_id w0) eqn:Hslot0;
      unfold alone, table_in_range; simpl; rewrite length_insert;
      (split; [done|]);
      rewrite list_lookup_insert_ne by done.
    + split.
      * intros k f [_ Hk]%lookup_delete_Some. by eapply Hrange.
      * intros Hpend. destruct (Hown Hpend) as [Hslot Huniq].
        split; [by rewrite lookup_delete_ne|].
        intros k [_ Hk]%lookup_delete_Some. by apply Huniq.
    + done.
  - destruct (_message_sender_turn io b) as [b1|] eqn:Hturn; [|done]. simpl.
    destruct (sender_turn_keeps_futures io b b1 Hturn) as [Hf Ht].
    by apply (alone_untouched w b).
  - unfold _message_receiver_turn.
    destruct (connected b); [|done].
    assert (∀ r : outcome (option pyval),
      alone w (default b
        match r with
        | Returned (Some message) =>
            if py_truthy message then
              match _handle_received_message message now b with
              | (b1, Returned _) => Some (bump_received b1)
              | (b1, Raised _) => Some b1
              end
            else Some b
        | _ => Some b
        end)) as Hcase.
    { intros [[message|]|e]; try done.
      destruct (py_truthy message); [|done].
      pose proof (alone_handle w message now b Halone) as Hh.
      destruct (_handle_received_message message now b) as [b1 [u|e]];
        [by apply (alone_untouched w b1)|done]. }
    destruct (protocol b); try done; apply Hcase.
Qed.

Lemma alone_run w es b : Forall (foreign w) es → alone w b → alone w (run es b).
Proof.
  intros Hes. revert b. induction Hes as [|e es He _ IH]; intros b Halone; [done|].
  apply IH. by apply alone_step.
Qed.

(** A request that stays alone under its id, that nothing resolves and
    that is woken once the 5.0 s have passed, does return [None], and its
    id is then absent from the table. *)
Lemma lonely_timeout_returns_none t_id t_ts b b1 w es elapsed :
  table_in_range b →
  get_performance_feedback_call t_id t_ts b = (b1, inl w) →
  Forall (foreign w) es →
  futures (run es b1) !! awaited w = Some Pending →
  (feedback_timeout ≤ elapsed)%Z →
  ∃ b', get_performance_feedback_wake w elapsed (run es b1)
          = Some (b', Returned PNone) ∧
        response_futures b' !! request_id w = None.
Proof.
  intros Hrange Hcall Hes Hpend Hlate.
  destruct (alone_run w es b1 Hes (alone_after_call _ _ _ _ _ Hrange Hcall))
    as (_ & _ & Hown).
  apply (timeout_releases_slot w elapsed _ Hpend Hlate).
  destruct (Hown Hpend) as [-> _]. by eexists.
Qed.

(** C2. Neither of the two requests above is answered. The first one
    times out 5.0 s after it was parked: it returns [None] and deletes
    the entry under the shared id. The second one times out 5.0 s after
    it was parked in turn: its future is still pending, no response ever
    resolved it, and the [del] in its timeout branch finds no entry, so
    the call ends with [KeyError] instead of returning [None]. *)
Theorem second_timeout_raises_KeyError :
  let b2 := fst second_request in
  let b3 := step b2 (FeedbackWake first_waiter feedback_timeout) in
  snd <$> get_performance_feedback_wake first_waiter feedback_timeout b2
    = Some (Returned PNone) ∧
  response_futures b3 !! "feedback_1700000000" = None ∧
  futures b3 !! awaited second_waiter = Some Pending ∧
  snd <$> get_performance_feedback_wake second_waiter feedback_timeout b3
    = Some (Raised (KeyError "feedback_1700000000")).
Proof.
  repeat split; vm_compute; reflexivity.
Qed.

(** ** C9: the confidence threshold of the MEV scan *)

Lemma below_threshold : PrimFloat.ltb 0.8 0.75 = false.
Proof. reflexivity. Qed.

Lemma above_threshold : PrimFloat.ltb 0.8 0.85 = true.
Proof. reflexivity. Qed.

(** C9. With [min_confidence] configured to 0.8, a turn of the detection
    loop that finds one opportunity of confidence 0.75 leaves the whole
    system as it was: nothing is put on the bridge's queue and
    [mev_opportunities_detected] does not move. A turn that finds one
    opportunity of confidence 0.85 puts exactly its [mev_opportunity]
    envelope on the bridge's queue and raises
    [mev_opportunities_detected] by exactly 1. *)
Theorem mev_threshold_filters
    (sys : AIPredictorSystem) (mempool_data : pyval)
    (low high : MEVOpportunityMessage) (now : Z) :
  running sys = true →
  py_truthy mempool_data = true →
  min_confidence (settings_mev sys) = 0.8%float →
  confidence low = 0.75%float →
  confidence high = 0.85%float →
  mev_detection_turn mempool_data [(low, now)] sys = Some sys ∧
  ∃ sys',
    mev_detection_turn mempool_data [(high, now)] sys = Some sys' ∧
    only_queued (rust_bridge sys) (rust_bridge sys') (mev_envelope high now) ∧
    enqueued (rust_bridge sys') = enqueued (rust_bridge sys) ++ [mev_envelope high now] ∧
    mev_opportunities_detected (metrics sys')
      = (mev_opportunities_detected (metrics sys) + 1)%Z ∧
    predictions_made (metrics sys') = predictions_made (metrics sys).
Proof.
  intros Hrun Hdata Hthr Hlow Hhigh. unfold mev_detection_turn.
  rewrite Hrun, Hdata. simpl. rewrite Hthr, Hlow, Hhigh.
  rewrite below_threshold, above_threshold.
  split; [done|]. eexists. split; [done|]. by repeat split.
Qed.

Lemma mev_threshold_filters_witness :
  let low := create_mev_opportunity_message "ETH/USDT" "sandwich" 0.02 0.75 5
               1700000000000000 in
  let mempool := PDict [("pending", PList [PStr "0xabc"])] in
  mev_detection_turn mempool [(low, 1700000000000000%Z)] idle_system
    = Some idle_system.
Proof.
  apply (mev_threshold_filters idle_system
           (PDict [("pending", PList [PStr "0xabc"])])
           (create_mev_opportunity_message "ETH/USDT" "sandwich" 0.02 0.75 5
              1700000000000000)
           (create_mev_opportunity_message "ETH/USDT" "arbitrage" 0.02 0.85 5
              1700000000000000)
           1700000000000000 eq_refl eq_refl eq_refl eq_refl eq_refl).
Defined.

(** * Further properties of the bridge and of its callers *)

(** ** Request ids and the life of a feedback request *)

(** X1. Two feedback requests get the same request id exactly when their
    clock readings fall in the same whole second. *)
Theorem request_id_per_second (t1 t2 : Z) :
  feedback_request_id t1 = feedback_request_id t2 ↔ int_seconds t1 = int_seconds t2.
Proof.
  split; [|apply same_second_same_request_id].
  intros Heq. destruct (decide (int_seconds t1 = int_seconds t2)) as [|Hne]; [done|].
  by destruct (other_second_other_request_id t1 t2 Hne).
Qed.

(** X2. The timeout of a request that is alone under its id. A request is
    issued; until it is woken nobody issues a request under the same id or
    wakes another waiter of that id, and no response resolves it. Woken
    once 5.0 s have passed, the call returns [None] without raising, its
    entry is gone from the table, its future is cancelled, and the queue is
    not touched. *)
Theorem timeout_of_lone_request
    (t_id t_ts : Z) (b b1 : RustBridge) (w : waiter) (es : list event) (elapsed : Z) :
  table_in_range b →
  get_performance_feedback_call t_id t_ts b = (b1, inl w) →
  Forall (foreign w) es →
  futures (run es b1) !! awaited w = Some Pending →
  (feedback_timeout ≤ elapsed)%Z →
  ∃ b', get_performance_feedback_wake w elapsed (run es b1)
          = Some (b', Returned PNone) ∧
        response_futures b' !! request_id w = None ∧
        futures b' !! awaited w = Some Cancelled ∧
        outbound_queue b' = outbound_queue (run es b1).
Proof.
  intros Hrange Hcall Hes Hpend Hlate.
  destruct (alone_run w es b1 Hes (alone_after_call _ _ _ _ _ Hrange Hcall))
    as (Hlt & _ & Hown).
  destruct (Hown Hpend) as [Hslot _].
  unfold get_performance_feedback_wake. rewrite Hpend.
  apply Z.leb_le in Hlate. rewrite Hlate. simpl. rewrite Hslot.
  eexists. split; [done|]. simpl.
  split; [apply lookup_delete_eq|]. split; [by apply list_lookup_insert_eq|done].
Qed.

Lemma timeout_of_lone_request_witness :
  let b := init "localhost" 8080 WEBSOCKET [] in
  let w := {| request_id := "feedback_1700000000"; awaited := 0 |} in
  let es := [SendHeartbeat 1700000001000000;
             FeedbackCall 1700000002000000 1700000002000000;
             ReceiverTurn Nothing 1700000003000000] in
  ∃ b', get_performance_feedback_wake w 5000000
          (run es (fst (get_performance_feedback_call 1700000000200000
                          1700000000200000 b)))
        = Some (b', Returned PNone) ∧
        response_futures b' !! "feedback_1700000000" = None.
Proof.
  destruct (timeout_of_lone_request 1700000000200000 1700000000200000
           (init "localhost" 8080 WEBSOCKET [])
           (fst (get_performance_feedback_call 1700000000200000 1700000000200000
                   (init "localhost" 8080 WEBSOCKET [])))
           {| request_id := "feedback_1700000000"; awaited := 0 |}
           [SendHeartbeat 1700000001000000;
            FeedbackCall 1700000002000000 1700000002000000;
            ReceiverTurn Nothing 1700000003000000]
           5000000) as (b' & Hwake & Hgone & _).
  - intros k f Hk. simpl in Hk. by rewrite lookup_empty in Hk.
  - vm_compute. reflexivity.
  - repeat constructor. vm_compute. discriminate.
  - vm_compute. reflexivity.
  - vm_compute. discriminate.
  - exists b'. split; [exact Hwake | exact Hgone].
Defined.

(** X3. Round trip of a feedback request. A request is issued and stays
    alone under its id; no response has resolved it yet. When a
    [feedback_response] arrives that carries the request id of the request,
    the handler removes the entry and the waiter, whenever it is woken,
    returns the [data] of that response. *)
Theorem feedback_round_trip
    (t_id t_ts : Z) (b b1 : RustBridge) (w : waiter) (es : list event)
    (d : list (string * pyval)) (now elapsed : Z) :
  table_in_range b →
  get_performance_feedback_call t_id t_ts b = (b1, inl w) →
  Forall (foreign w) es →
  futures (run es b1) !! awaited w = Some Pending →
  py_get "type" d = PStr "feedback_response" →
  py_get "request_id" d = PStr (feedback_request_id t_id) →
  let b2 := fst (_handle_received_message (PDict d) now (run es b1)) in
  snd (_handle_received_message (PDict d) now (run es b1)) = Returned tt ∧
  get_performance_feedback_wake w elapsed b2 = Some (b2, Returned (py_get "data" d)) ∧
  response_futures b2 !! request_id w = None.
Proof.
  intros Hrange Hcall Hes Hpend Hty Hid.
  destruct (alone_run w es b1 Hes (alone_after_call _ _ _ _ _ Hrange Hcall))
    as (Hlt & _ & Hown).
  destruct (Hown Hpend) as [Hslot _].
  assert (request_id w = feedback_request_id t_id) as Hw.
  { by injection Hcall as _ <-. }
  unfold _handle_received_message. rewrite Hty, Hid, <-Hw. simpl. rewrite Hslot. simpl.
  split; [done|].
  assert (futures (resolve (awaited w) (py_get "data" d)
            (set_response_futures (delete (request_id w)
               (response_futures (run es b1))) (run es b1))) !! awaited w
          = Some (Done (py_get "data" d))) as Hdone.
  { unfold resolve. simpl. rewrite Hpend. simpl.
    by rewrite list_lookup_insert_eq. }
  split.
  - unfold get_performance_feedback_wake. by rewrite Hdone.
  - rewrite resolve_table. simpl. apply lookup_delete_eq.
Qed.

Lemma feedback_round_trip_witness :
  let b := init "localhost" 8080 WEBSOCKET [] in
  let b1 := fst (get_performance_feedback_call 1700000000200000 1700000000200000 b) in
  let w := {| request_id := "feedback_1700000000"; awaited := 0 |} in
  let d := [("type", PStr "feedback_response");
            ("request_id", PStr "feedback_1700000000");
            ("data", PDict [("predictions", PList [])])] in
  let b2 := fst (_handle_received_message (PDict d) 1700000001000000 b1) in
  get_performance_feedback_wake w 1000000 b2
    = Some (b2, Returned (PDict [("predictions", PList [])])).
Proof.
  refine (proj1 (proj2 (feedback_round_trip 1700000000200000 1700000000200000
           (init "localhost" 8080 WEBSOCKET [])
           (fst (get_performance_feedback_call 1700000000200000 1700000000200000
                   (init "localhost" 8080 WEBSOCKET [])))
           {| request_id := "feedback_1700000000"; awaited := 0 |}
           []
           [("type", PStr "feedback_response");
            ("request_id", PStr "feedback_1700000000");
            ("data", PDict [("predictions", PList [])])]
           1700000001000000 1000000 _ _ _ _ _ _))).
  - intros k f Hk. simpl in Hk. by rewrite lookup_empty in Hk.
  - vm_compute. reflexivity.
  - constructor.
  - vm_compute. reflexivity.
  - reflexivity.
  - vm_compute. reflexivity.
Defined.

(** A response under an id that has no entry. *)
Lemma handle_response_without_entry
    (d : list (string * pyval)) (rid : string) (now : Z) (b : RustBridge) :
  py_get "type" d = PStr "feedback_response" →
  py_get "request_id" d = PStr rid →
  response_futures b !! rid = None →
  _handle_received_message (PDict d) now b = (b, Returned tt).
Proof.
  intros Hty Hid Hnone. unfold _handle_received_message.
  by rewrite Hty, Hid, Hnone.
Qed.

(** X4. A [feedback_response] whose request id is unknown to the table (or
    is a hashable value that is no string, or is missing) is a no-op: the
    handler returns normally and the bridge is exactly as before. *)
Theorem unknown_feedback_response_ignored
    (d : list (string * pyval)) (now : Z) (b : RustBridge) :
  py_get "type" d = PStr "feedback_response" →
  hashable (py_get "request_id" d) →
  (∀ rid, py_get "request_id" d = PStr rid → response_futures b !! rid = None) →
  _handle_received_message (PDict d) now b = (b, Returned tt).
Proof.
  intros Hty Hhash Hunknown.
  destruct (py_get "request_id" d) as [| | | |rid| |] eqn:Hid;
    try done;
    try (unfold _handle_received_message; by rewrite Hty, Hid).
  apply (handle_response_without_entry d rid); [done..|]. by apply Hunknown.
Qed.

Lemma unknown_feedback_response_ignored_witness :
  let d := [("type", PStr "feedback_response");
            ("request_id", PStr "feedback_1600000000")] in
  _handle_received_message (PDict d) 1700000001000000 (fst second_request)
    = (fst second_request, Returned tt).
Proof.
  apply (unknown_feedback_response_ignored
           [("type", PStr "feedback_response");
            ("request_id", PStr "feedback_1600000000")]
           1700000001000000 (fst second_request)).
  - reflexivity.
  - exact I.
  - intros rid [= <-]. vm_compute. reflexivity.
Defined.

(** X5. Resolving twice is a no-op: once a [feedback_response] has been
    handled, a second one with the same request id changes nothing and
    raises nothing, whether or not the first one found an entry. *)
Theorem repeated_feedback_response_ignored
    (d1 d2 : list (string * pyval)) (rid : string) (now1 now2 : Z) (b : RustBridge) :
  py_get "type" d1 = PStr "feedback_response" →
  py_get "type" d2 = PStr "feedback_response" →
  py_get "request_id" d1 = PStr rid →
  py_get "request_id" d2 = PStr rid →
  let b1 := fst (_handle_received_message (PDict d1) now1 b) in
  _handle_received_message (PDict d2) now2 b1 = (b1, Returned tt).
Proof.
  intros Hty1 Hty2 Hid1 Hid2. simpl.
  apply (handle_response_without_entry d2 rid); [done..|].
  unfold _handle_received_message. rewrite Hty1, Hid1. simpl.
  destruct (response_futures b !! rid) as [fut|] eqn:Hslot; simpl; [|done].
  rewrite resolve_table. simpl. apply lookup_delete_eq.
Qed.

Lemma repeated_feedback_response_ignored_witness :
  let d := [("type", PStr "feedback_response");
            ("request_id", PStr "feedback_1700000000");
            ("data", PDict [("accuracy", PInt 1)])] in
  let b1 := fst (_handle_received_message (PDict d) 1700000001000000
                   (fst second_request)) in
  _handle_received_message (PDict d) 1700000002000000 b1 = (b1, Returned tt).
Proof.
  apply (repeated_feedback_response_ignored
           [("type", PStr "feedback_response");
            ("request_id", PStr "feedback_1700000000");
            ("data", PDict [("accuracy", PInt 1)])]
           [("type", PStr "feedback_response");
            ("request_id", PStr "feedback_1700000000");
            ("data", PDict [("accuracy", PInt 1)])]
           "feedback_1700000000" 1700000001000000 1700000002000000
           (fst second_request)); reflexivity.
Defined.

(** X6. A response that comes too late is a no-op: once the timeout has
    woken a waiter whose future was still pending (whichever way its
    timeout branch ended), a [feedback_response] with the waiter's request
    id changes nothing and raises nothing, and the future stays cancelled. *)
Theorem late_feedback_response_ignored
    (w : waiter) (elapsed : Z) (b b' : RustBridge) (r : outcome pyval)
    (d : list (string * pyval)) (now : Z) :
  futures b !! awaited w = Some Pending →
  get_performance_feedback_wake w elapsed b = Some (b', r) →
  py_get "type" d = PStr "feedback_response" →
  py_get "request_id" d = PStr (request_id w) →
  _handle_received_message (PDict d) now b' = (b', Returned tt) ∧
  futures b' !! awaited w = Some Cancelled.
Proof.
  intros Hpend Hwake Hty Hid. unfold get_performance_feedback_wake in Hwake.
  rewrite Hpend in Hwake.
  destruct (feedback_timeout <=? elapsed)%Z; [|done]. simpl in Hwake.
  assert (awaited w < length (futures b)) as Hlt by by eapply lookup_lt_Some.
  destruct (response_futures b !! request_id w) as [fut|] eqn:Hslot;
    injection Hwake as <- <-; (split; [|by apply list_lookup_insert_eq]);
    apply (handle_response_without_entry d (request_id w)); try done; simpl.
  apply lookup_delete_eq.
Qed.

Lemma late_feedback_response_ignored_witness :
  let w := {| request_id := "feedback_1700000000"; awaited := 0 |} in
  let b := fst first_request in
  let b' := step b (FeedbackWake w 5000000) in
  let d := [("type", PStr "feedback_response");
            ("request_id", PStr "feedback_1700000000");
            ("data", PInt 1)] in
  _handle_received_message (PDict d) 1700000009000000 b' = (b', Returned tt) ∧
  futures b' !! 0 = Some Cancelled.
Proof.
  apply (late_feedback_response_ignored
           {| request_id := "feedback_1700000000"; awaited := 0 |} 5000000
           (fst first_request)
           (step (fst first_request)
              (FeedbackWake {| request_id := "feedback_1700000000"; awaited := 0 |}
                 5000000))
           (Returned PNone)
           [("type", PStr "feedback_response");
            ("request_id", PStr "feedback_1700000000");
            ("data", PInt 1)]
           1700000009000000); vm_compute; reflexivity.
Defined.

(** ** The receiver loop *)

(** X7. A decoded message that is no JSON object, or is the empty object,
    or is a [feedback_response] with an unhashable request id, leaves a
    connected bridge exactly as it was, under every protocol: it is skipped
    or the exception of its handling is swallowed by the loop, the loop
    goes on, and [messages_received] does not count it. *)
Theorem receiver_skips_unusable_messages (message : pyval) (now : Z) (b : RustBridge) :
  unusable message →
  connected b = true →
  _message_receiver_turn (Decoded message) now b = Some b.
Proof.
  intros Hbad Hconn. unfold _message_receiver_turn. rewrite Hconn.
  assert (match py_truthy message with
          | true =>
              match _handle_received_message message now b with
              | (b1, Returned _) => Some (bump_received b1)
              | (b1, Raised _) => Some b1
              end
          | false => Some b
          end = Some b) as Hskip.
  { destruct message as [| | | | | |d]; try by destruct (py_truthy _).
    destruct Hbad as [-> | [Hty Hid]]; [done|].
    destruct (py_truthy (PDict d)); [|done].
    unfold _handle_received_message. rewrite Hty. simpl.
    by destruct (py_get "request_id" d). }
  unfold _receive_websocket, _receive_redis, _receive_tcp.
  by destruct (protocol b), (websocket b), (tcp_reader b).
Qed.

Lemma receiver_skips_unusable_messages_witness :
  let b := fst (connect (init "localhost" 8080 WEBSOCKET [Established 1])) in
  let message := PDict [("type", PStr "feedback_response");
                        ("request_id", PList [PInt 1])] in
  _message_receiver_turn (Decoded message) 1700000000000000 b = Some b.
Proof.
  apply (receiver_skips_unusable_messages
           (PDict [("type", PStr "feedback_response");
                   ("request_id", PList [PInt 1])])
           1700000000000000
           (fst (connect (init "localhost" 8080 WEBSOCKET [Established 1])))).
  - right. split; [reflexivity|]. intros H. exact H.
  - reflexivity.
Defined.

(** X8. A [status_request] read by the receiver loop of a connected
    WebSocket or TCP bridge is answered and counted in one turn: the queue
    gets exactly one envelope, the status response; [messages_received]
    grows by one, and the [messages_received] reported in the response is
    the value before the request itself was counted. Nothing is written to
    the transport by the turn. *)
Theorem receiver_answers_status_request
    (d : list (string * pyval)) (now : Z) (b : RustBridge) :
  connected b = true →
  inbound_up b = true →
  py_get "type" d = PStr "status_request" →
  ∃ b' envelope data,
    _message_receiver_turn (Decoded (PDict d)) now b = Some b' ∧
    outbound_queue b' = outbound_queue b ++ [PDict envelope] ∧
    py_get "type" envelope = PStr "status_response" ∧
    py_get "data" envelope = PDict data ∧
    py_get "messages_received" data = PInt (messages_received b' - 1) ∧
    messages_received b' = (messages_received b + 1)%Z ∧
    messages_sent b' = messages_sent b ∧
    wire b' = wire b.
Proof.
  intros Hconn Hup Hty. unfold _message_receiver_turn. rewrite Hconn.
  assert (py_truthy (PDict d) = true) as Htruthy.
  { by destruct d. }
  assert (_handle_received_message (PDict d) now b
          = (fst (_send_message (status_response now b) b), Returned tt)) as Hh.
  { unfold _handle_received_message. by rewrite Hty. }
  eexists (bump_received (fst (_send_message (status_response now b) b))), _, _.
  split.
  - unfold inbound_up in Hup. unfold _receive_websocket, _receive_tcp.
    destruct (protocol b); try done.
    + destruct (websocket b); [|done]. by rewrite Htruthy, Hh.
    + destruct (tcp_reader b); [|done]. by rewrite Htruthy, Hh.
  - simpl. repeat split. unfold py_get. simpl. f_equal. lia.
Qed.

Lemma receiver_answers_status_request_witness :
  let b := fst (connect (init "localhost" 9000 TCP [Established 3])) in
  ∃ b' envelope data,
    _message_receiver_turn (Decoded (PDict [("type", PStr "status_request")]))
      1700000000000000 b = Some b' ∧
    outbound_queue b' = outbound_queue b ++ [PDict envelope] ∧
    py_get "type" envelope = PStr "status_response" ∧
    py_get "data" envelope = PDict data ∧
    py_get "messages_received" data = PInt (messages_received b' - 1) ∧
    messages_received b' = (messages_received b + 1)%Z ∧
    messages_sent b' = messages_sent b ∧
    wire b' = wire b.
Proof.
  apply (receiver_answers_status_request [("type", PStr "status_request")]
           1700000000000000
           (fst (connect (init "localhost" 9000 TCP [Established 3]))));
    reflexivity.
Defined.

(** ** What the events do to the queue and to the transport *)

Lemma grows_by_nothing b : grows_by [] b b.
Proof. unfold grows_by. by rewrite !app_nil_r. Qed.


Lemma grows_by_trans added1 added2 b1 b2 b3 :
  grows_by added1 b1 b2 → grows_by added2 b2 b3 →
  grows_by (added1 ++ added2) b1 b3.
Proof.
  unfold grows_by.
  intros (Hq1 & He1 & Hw1 & Hs1 & Hc1 & Hn1 & Ht1 & Hp1)
         (Hq2 & He2 & Hw2 & Hs2 & Hc2 & Hn2 & Ht2 & Hp2).
  rewrite Hq2, He2, Hw2, Hs2, Hc2, Hn2, Ht2, Hp2, Hq1, He1, !app_assoc.
  done.
Qed.

Lemma grows_by_send_message message b :
  grows_by [message] b (fst (_send_message message b)).
Proof. by repeat split. Qed.




(** [connect] touches neither the queue nor the transport. *)
Lemma connect_keeps_queue b :
  outbound_queue (fst (connect b)) = outbound_queue b ∧
  enqueued (fst (connect b)) = enqueued b ∧
  wire (fst (connect b)) = wire b ∧
  messages_sent (fst (connect b)) = messages_sent b ∧
  protocol (fst (connect b)) = protocol b.
Proof.
  unfold connect, _connect_websocket, _connect_redis, _connect_tcp, open_connection.
  by destruct (protocol b) eqn:Hproto, (net b) as [|[c|e] rest].
Qed.

(** ** The sender loop *)

(** X9. With the handle of its protocol unset (or with a protocol value
    that is no member of the enum), a turn of the sender on a connected
    bridge takes the oldest message off the queue, writes nothing, raises
    nothing, and counts the message in [messages_sent]. *)
Theorem sender_without_handle_counts_as_sent
    (io : delivery) (b : RustBridge) (message : pyval) (rest : list pyval) :
  connected b = true →
  link_up b = false →
  outbound_queue b = message :: rest →
  ∃ b', _message_sender_turn io b = Some b' ∧
        outbound_queue b' = rest ∧
        wire b' = wire b ∧
        messages_sent b' = (messages_sent b + 1)%Z ∧
        connection_errors b' = connection_errors b.
Proof.
  unfold _message_sender_turn, link_up. intros -> Hdown ->.
  unfold _send_websocket, _send_redis, _send_tcp. simpl.
  destruct (protocol b).
  - destruct (websocket b); [done|]. by eexists.
  - destruct (redis_client b); [done|]. by eexists.
  - destruct (tcp_writer b); [done|]. by eexists.
  - by eexists.
Qed.

Lemma sender_without_handle_counts_as_sent_witness :
  let b := fst (send_heartbeat 1700000000000000
                  (set_connected true (init "localhost" 8080 WEBSOCKET []))) in
  ∃ b', _message_sender_turn Accepted b = Some b' ∧
        outbound_queue b' = [] ∧
        wire b' = wire b ∧
        messages_sent b' = (messages_sent b + 1)%Z ∧
        connection_errors b' = connection_errors b.
Proof.
  apply (sender_without_handle_counts_as_sent Accepted
           (fst (send_heartbeat 1700000000000000
                   (set_connected true (init "localhost" 8080 WEBSOCKET []))))
           (heartbeat_envelope 1700000000000000
              (set_connected true (init "localhost" 8080 WEBSOCKET [])))
           []); reflexivity.
Defined.

(** X10. Draining the queue. On a connected bridge whose handle is set,
    as many accepted turns of the sender as there are queued messages empty
    the queue and write exactly the queued messages, in queue order, after
    what the transport already had; [messages_sent] grows by their number
    and no error is counted. (Under Redis every message must have a
    ["type"].) *)
Theorem accepted_turns_drain_queue (b : RustBridge) :
  connected b = true →
  link_up b = true →
  Forall (λ m, publishable b m = true) (outbound_queue b) →
  let b' := run (replicate (length (outbound_queue b)) (SenderTurn Accepted)) b in
  outbound_queue b' = [] ∧
  payload <$> wire b' = (payload <$> wire b) ++ outbound_queue b ∧
  messages_sent b' = (messages_sent b + Z.of_nat (length (outbound_queue b)))%Z ∧
  connection_errors b' = connection_errors b ∧
  enqueued b' = enqueued b.
Proof.
  intros Hconn Hup Hpub. simpl.
  remember (outbound_queue b) as q eqn:Hq. revert b Hq Hconn Hup Hpub.
  induction q as [|m q IH]; intros b Hq Hconn Hup Hpub.
  { simpl. rewrite <-Hq, app_nil_r. repeat split. lia. }
  apply Forall_cons in Hpub as [Hm Hpub].
  destruct (sender_turn_accepted b m q Hconn Hup Hm (eq_sym Hq)) as (f & Hf & Hturn).
  assert (run (replicate (length (m :: q)) (SenderTurn Accepted)) b
          = run (replicate (length q) (SenderTurn Accepted))
              (bump_sent (transmit f (set_queue q b)))) as ->.
  { unfold run. cbn [length replicate fold_left step]. by rewrite Hturn. }
  destruct (IH (bump_sent (transmit f (set_queue q b))) eq_refl Hconn Hup Hpub)
    as (Hq' & Hw' & Hs' & He' & Hh').
  rewrite Hq', Hw', Hs', He', Hh'. cbn.
  rewrite fmap_app, <-app_assoc. cbn. rewrite Hf.
  repeat split. lia.
Qed.

Lemma accepted_turns_drain_queue_witness :
  outbound_queue (run (replicate 4 (SenderTurn Accepted)) backlog) = [] ∧
  payload <$> wire (run (replicate 4 (SenderTurn Accepted)) backlog)
    = outbound_queue backlog.
Proof.
  pose proof (accepted_turns_drain_queue backlog eq_refl eq_refl
                ltac:(repeat constructor)) as (Hq & Hw & _).
  split; [exact Hq | exact Hw].
Defined.







(** ** Connecting, probing, reconnecting *)

Lemma connect_when_established b c rest :
  is_member (protocol b) →
  net b = Established c :: rest →
  snd (connect b) = Returned true ∧
  connected (fst (connect b)) = true ∧
  link_up (fst (connect b)) = true ∧
  net (fst (connect b)) = rest ∧
  spawned (fst (connect b)) = S (spawned b) ∧
  connection_errors (fst (connect b)) = connection_errors b.
Proof.
  intros Hmem Hnet.
  unfold connect, _connect_websocket, _connect_redis, _connect_tcp, open_connection,
    link_up.
  rewrite Hnet. by destruct (protocol b) eqn:Hproto; simpl; rewrite ?Hproto.
Qed.


(** X13. For each of the three protocol members, when the network
    accepts the attempt, [connect] returns [True], sets [connected] and the
    handle its sender writes through, consumes exactly that attempt,
    creates one more pair of sender and receiver tasks (also on a bridge
    that is already connected) and leaves the error counter, the queue and
    the transport as they were. *)
Theorem connect_success (b : RustBridge) (c : nat) (rest : list attempt) :
  is_member (protocol b) →
  net b = Established c :: rest →
  let b' := fst (connect b) in
  snd (connect b) = Returned true ∧
  connected b' = true ∧
  link_up b' = true ∧
  net b' = rest ∧
  spawned b' = S (spawned b) ∧
  connection_errors b' = connection_errors b ∧
  outbound_queue b' = outbound_queue b ∧
  wire b' = wire b.
Proof.
  intros Hmem Hnet. simpl.
  destruct (connect_when_established b c rest Hmem Hnet)
    as (Hr & Hc & Hl & Hn & Hs & He).
  destruct (connect_keeps_queue b) as (Hq & _ & Hw & _).
  by repeat split.
Qed.

Lemma connect_success_witness :
  let b := fst (connect (init "localhost" 9000 TCP [Established 1; Established 2])) in
  snd (connect b) = Returned true ∧
  connected (fst (connect b)) = true ∧
  link_up (fst (connect b)) = true ∧
  net (fst (connect b)) = [] ∧
  spawned (fst (connect b)) = 2.
Proof.
  pose proof (connect_success
    (fst (connect (init "localhost" 9000 TCP [Established 1; Established 2])))
    2 [] I eq_refl) as (Hr & Hc & Hl & Hn & Hs & _).
  split; [exact Hr|]. split; [exact Hc|]. split; [exact Hl|].
  split; [exact Hn | exact Hs].
Defined.

(** X14. [is_connected] gives a true value exactly when the [connected]
    flag is set, the handle of the protocol is set, and the probe of the
    handle neither raised nor (for WebSocket and TCP) found it closed. In
    particular it is false, without looking at the handle's answer,
    whenever the flag is unset, and a raising probe never leaves it. *)
Theorem is_connected_truthy_iff (probe : outcome bool) (b : RustBridge) :
  py_truthy (is_connected probe b) = true ↔
  connected b = true ∧ link_up b = true ∧ probe_alive (protocol b) probe.
Proof.
  unfold is_connected, link_up, probe_alive.
  destruct (connected b); [|simpl; intuition congruence].
  destruct (protocol b), (websocket b), (redis_client b), (tcp_writer b),
    probe as [[|]|e]; simpl; intuition congruence.
Qed.



(** ** The cycles of main.py *)

Lemma grows_by_send_predictions predictions b :
  grows_by ((λ x, prediction_envelope (fst x) (snd x)) <$> predictions) b
    (send_predictions predictions b).
Proof.
  revert b. induction predictions as [|[prediction now] rest IH]; intros b.
  { apply grows_by_nothing. }
  simpl. apply (grows_by_trans [_] _ b (fst (send_prediction prediction now b)));
    [apply grows_by_send_message | apply IH].
Qed.

(** X16. A turn of the prediction loop with market data puts the envelope
    of every prediction it was given on the bridge's queue, in the order of
    the list and whatever the confidence of the prediction, adds their
    number to [predictions_made] and writes nothing to the transport; a
    turn without market data changes nothing. *)
Theorem prediction_turn_sends_all
    (market_data : pyval) (predictions : list (PredictionMessage * Z))
    (finished : Z) (sys : AIPredictorSystem) :
  running sys = true →
  if py_truthy market_data then
    ∃ sys',
      prediction_turn market_data predictions finished sys = Some sys' ∧
      outbound_queue (rust_bridge sys')
        = outbound_queue (rust_bridge sys)
          ++ ((λ x, prediction_envelope (fst x) (snd x)) <$> predictions) ∧
      wire (rust_bridge sys') = wire (rust_bridge sys) ∧
      predictions_made (metrics sys')
        = (predictions_made (metrics sys) + Z.of_nat (length predictions))%Z ∧
      mev_opportunities_detected (metrics sys')
        = mev_opportunities_detected (metrics sys) ∧
      last_prediction_time (metrics sys') = Some finished
  else prediction_turn market_data predictions finished sys = Some sys.
Proof.
  intros Hrun. unfold prediction_turn. rewrite Hrun.
  destruct (py_truthy market_data); [|done].
  destruct (grows_by_send_predictions predictions (rust_bridge sys))
    as (Hq & _ & Hw & _).
  eexists. split; [done|]. by repeat split.
Qed.

Lemma prediction_turn_sends_all_witness :
  let p := create_prediction_message "ETH/USDT" 0.6 0.9 15 1.2 "vwap" None
             1700000000000000 in
  ∃ sys',
    prediction_turn (PDict [("ETH/USDT", PFloat 2000)])
      [(p, 1700000000000000%Z); (p, 1700000000500000%Z)] 1700000001000000
      idle_system = Some sys' ∧
    outbound_queue (rust_bridge sys')
      = [prediction_envelope p 1700000000000000;
         prediction_envelope p 1700000000500000] ∧
    predictions_made (metrics sys') = 2%Z.
Proof.
  pose proof (prediction_turn_sends_all (PDict [("ETH/USDT", PFloat 2000)])
    [(create_prediction_message "ETH/USDT" 0.6 0.9 15 1.2 "vwap" None
        1700000000000000, 1700000000000000%Z);
     (create_prediction_message "ETH/USDT" 0.6 0.9 15 1.2 "vwap" None
        1700000000000000, 1700000000500000%Z)]
    1700000001000000 idle_system eq_refl) as (sys' & Hturn & Hq & _ & Hn & _).
  exists sys'. split; [exact Hturn|]. split; [exact Hq | exact Hn].
Defined.

Lemma forwarded_cons threshold opportunity now rest :
  forwarded threshold ((opportunity, now) :: rest)
  = if PrimFloat.ltb threshold (confidence opportunity)
    then (opportunity, now) :: forwarded threshold rest
    else forwarded threshold rest.
Proof. reflexivity. Qed.

Lemma forward_opportunities_spec found sys :
  settings_mev (forward_opportunities found sys) = settings_mev sys ∧
  running (forward_opportunities found sys) = running sys ∧
  grows_by ((λ x, mev_envelope (fst x) (snd x))
              <$> forwarded (min_confidence (settings_mev sys)) found)
    (rust_bridge sys) (rust_bridge (forward_opportunities found sys)) ∧
  mev_opportunities_detected (metrics (forward_opportunities found sys))
    = (mev_opportunities_detected (metrics sys)
       + Z.of_nat (length (forwarded (min_confidence (settings_mev sys)) found)))%Z ∧
  predictions_made (metrics (forward_opportunities found sys))
    = predictions_made (metrics sys).
Proof.
  revert sys. induction found as [|[opportunity now] rest IH]; intros sys.
  { simpl. split; [done|]. split; [done|]. split; [apply grows_by_nothing|].
    split; [lia|done]. }
  rewrite forwarded_cons.
  change (forward_opportunities ((opportunity, now) :: rest) sys)
    with (forward_opportunities rest
            (if PrimFloat.ltb (min_confidence (settings_mev sys)) (confidence opportunity)
             then {| settings_mev := settings_mev sys;
                     running := running sys;
                     rust_bridge :=
                       fst (send_mev_opportunity opportunity now (rust_bridge sys));
                     metrics := count_detection (metrics sys) |}
             else sys)).
  destruct (PrimFloat.ltb (min_confidence (settings_mev sys)) (confidence opportunity));
    [|apply IH].
  match goal with |- context [forward_opportunities rest ?s] =>
    destruct (IH s) as (Hs & Hr & Hg & Hd & Hp) end.
  cbn [settings_mev running rust_bridge metrics] in Hs, Hr, Hg, Hd, Hp.
  change (mev_opportunities_detected (count_detection (metrics sys)))
    with (mev_opportunities_detected (metrics sys) + 1)%Z in Hd.
  change (predictions_made (count_detection (metrics sys)))
    with (predictions_made (metrics sys)) in Hp.
  split; [exact Hs|]. split; [exact Hr|]. split; [|split; [|exact Hp]].
  - rewrite fmap_cons.
    apply (grows_by_trans [_] _ _
             (fst (send_mev_opportunity opportunity now (rust_bridge sys))));
      [apply grows_by_send_message | exact Hg].
  - rewrite Hd. cbn [length]. lia.
Qed.

(** X17. A turn of the MEV scan with mempool data forwards exactly the
    opportunities whose confidence is strictly above [min_confidence]: their
    envelopes are appended to the bridge's queue in the order they were
    found, [mev_opportunities_detected] grows by their number, and the rest
    is dropped without trace. Nothing is written to the transport. *)
Theorem mev_scan_forwards_confident_only
    (mempool_data : pyval) (found : list (MEVOpportunityMessage * Z))
    (sys : AIPredictorSystem) :
  running sys = true →
  py_truthy mempool_data = true →
  ∃ sys',
    mev_detection_turn mempool_data found sys = Some sys' ∧
    outbound_queue (rust_bridge sys')
      = outbound_queue (rust_bridge sys)
        ++ ((λ x, mev_envelope (fst x) (snd x))
              <$> forwarded (min_confidence (settings_mev sys)) found) ∧
    wire (rust_bridge sys') = wire (rust_bridge sys) ∧
    mev_opportunities_detected (metrics sys')
      = (mev_opportunities_detected (metrics sys)
         + Z.of_nat (length (forwarded (min_confidence (settings_mev sys)) found)))%Z ∧
    predictions_made (metrics sys') = predictions_made (metrics sys).
Proof.
  intros Hrun Hdata. unfold mev_detection_turn. rewrite Hrun, Hdata.
  destruct (forward_opportunities_spec found sys)
    as (_ & _ & (Hq & _ & Hw & _) & Hd & Hp).
  eexists. split; [done|]. by repeat split.
Qed.

Lemma mev_scan_forwards_confident_only_witness :
  let low := create_mev_opportunity_message "ETH/USDT" "sandwich" 0.02 0.8 5
               1700000000000000 in
  let high := create_mev_opportunity_message "ETH/USDT" "arbitrage" 0.02 0.85 5
                1700000000000000 in
  ∃ sys',
    mev_detection_turn (PDict [("pending", PInt 3)])
      [(low, 1700000000000000%Z); (high, 1700000000100000%Z);
       (low, 1700000000200000%Z)] idle_system = Some sys' ∧
    outbound_queue (rust_bridge sys') = [mev_envelope high 1700000000100000] ∧
    mev_opportunities_detected (metrics sys') = 1%Z.
Proof.
  pose proof (mev_scan_forwards_confident_only (PDict [("pending", PInt 3)])
    [(create_mev_opportunity_message "ETH/USDT" "sandwich" 0.02 0.8 5
        1700000000000000, 1700000000000000%Z);
     (create_mev_opportunity_message "ETH/USDT" "arbitrage" 0.02 0.85 5
        1700000000000000, 1700000000100000%Z);
     (create_mev_opportunity_message "ETH/USDT" "sandwich" 0.02 0.8 5
        1700000000000000, 1700000000200000%Z)]
    idle_system eq_refl eq_refl) as (sys' & Hturn & Hq & _ & Hd & _).
  exists sys'. split; [exact Hturn|]. split; [exact Hq | exact Hd].
Defined.





(** ** Validation of the settings *)

(** X20. [validate] answers [False], without raising and without looking
    at anything else, when the host is empty or the port is not positive. *)
Theorem validate_rejects_bad_address (self : settings.Settings) :
  settings.host (settings.communication self) = "" ∨
  (settings.port (settings.communication self) ≤ 0)%Z →
  settings.validate self = Returned false.
Proof.
  intros Hbad. unfold settings.validate.
  destruct (settings.host (settings.communication self)) as [|a host] eqn:Hhost;
    [done|]. simpl.
  destruct Hbad as [|Hport]; [done|].
  by apply Z.ltb_ge in Hport as ->.
Qed.

Lemma validate_rejects_bad_address_witness :
  settings.validate
    {| settings.mev := default_MEVConfig;
       settings.models := settings.default_ModelConfig;
       settings.prediction := settings.default_PredictionConfig;
       settings.communication :=
         {| settings.host := "localhost"; settings.port := 0;
            settings.protocol := "tcp"; settings.reconnect_interval := 5;
            settings.heartbeat_interval := 30;
            settings.redis_url := "redis://localhost:6379";
            settings.tcp_keepalive := true |} |}
  = Returned false.
Proof.
  apply validate_rejects_bad_address. right. simpl. lia.
Defined.

(** X21. The [try] of [validate] only catches failed assertions. When the
    address and the two thresholds pass and the LSTM table has no
    ["hidden_size"], [validate] does not answer [False]: the [KeyError] of
    the lookup leaves it. *)
Theorem validate_raises_on_missing_entry (self : settings.Settings) :
  settings.host (settings.communication self) ≠ "" →
  (0 < settings.port (settings.communication self))%Z →
  settings.in_unit_interval
    (settings.confidence_threshold (settings.prediction self)) = true →
  settings.in_unit_interval (min_confidence (settings.mev self)) = true →
  dict_get "hidden_size" (settings.lstm (settings.models self)) = None →
  settings.validate self = Raised (KeyError "hidden_size").
Proof.
  intros Hhost Hport Hthr Hmin Hmissing. unfold settings.validate.
  destruct (settings.host (settings.communication self)) as [|a host]; [done|].
  simpl. apply Z.ltb_lt in Hport as ->. rewrite Hthr, Hmin. simpl.
  unfold settings.assert_positive_entry, settings.subscript. by rewrite Hmissing.
Qed.

Lemma validate_raises_on_missing_entry_witness :
  settings.validate
    {| settings.mev := default_MEVConfig;
       settings.models :=
         {| settings.lstm := [("num_layers", PInt 2)];
            settings.transformer := [("d_model", PInt 128)];
            settings.random_forest := [];
            settings.xgboost := [];
            settings.model_save_dir := "saved_models";
            settings.retrain_interval_hours := 24 |};
       settings.prediction := settings.default_PredictionConfig;
       settings.communication := settings.default_CommunicationConfig |}
  = Raised (KeyError "hidden_size").
Proof.
  apply validate_raises_on_missing_entry; try reflexivity.
  discriminate.
Defined.

(** X22. What a [True] of [validate] guarantees: a non-empty host, a
    positive port, both thresholds within [0, 1], and in the LSTM and the
    Transformer tables an entry ["hidden_size"], respectively ["d_model"],
    that is a number above zero. *)
Theorem validate_true_guarantees (self : settings.Settings) :
  settings.validate self = Returned true →
  settings.host (settings.communication self) ≠ "" ∧
  (0 < settings.port (settings.communication self))%Z ∧
  settings.in_unit_interval
    (settings.confidence_threshold (settings.prediction self)) = true ∧
  settings.in_unit_interval (min_confidence (settings.mev self)) = true ∧
  (∃ v, dict_get "hidden_size" (settings.lstm (settings.models self)) = Some v ∧
        settings.gt_zero v = Returned true) ∧
  (∃ v, dict_get "d_model" (settings.transformer (settings.models self)) = Some v ∧
        settings.gt_zero v = Returned true).
Proof.
  unfold settings.validate, settings.assert_positive_entry, settings.subscript.
  destruct (settings.host (settings.communication self)) as [|a host]; [done|].
  simpl.
  destruct (0 <? settings.port (settings.communication self))%Z eqn:Hport; [|done].
  destruct (settings.in_unit_interval
              (settings.confidence_threshold (settings.prediction self))); [|done].
  destruct (settings.in_unit_interval (min_confidence (settings.mev self))); [|done].
  simpl.
  destruct (dict_get "hidden_size" (settings.lstm (settings.models self)))
    as [v1|]; [|done].
  destruct (settings.gt_zero v1) as [[|]|] eqn:Hv1; try done.
  destruct (dict_get "d_model" (settings.transformer (settings.models self)))
    as [v2|]; [|done].
  destruct (settings.gt_zero v2) as [[|]|] eqn:Hv2; try done.
  intros _. apply Z.ltb_lt in Hport. repeat split; eauto.
Qed.

Lemma validate_true_guarantees_witness :
  settings.validate settings.default_Settings = Returned true ∧
  (0 < settings.port (settings.communication settings.default_Settings))%Z.
Proof.
  split; [reflexivity|].
  apply (validate_true_guarantees settings.default_Settings). reflexivity.
Defined.
